(** * AgriVision IoT server: the reading-ingestion endpoint of [server.js]

    A shallow embedding of [sanitizeCollectionName], [decodeBase64Image] and
    the [POST /api/store-reading] handler, together with the pieces of the
    JavaScript runtime they call (string trimming, the two regular
    expressions, [Number], [Number.isNaN], Node's base64 decoder, [path.join],
    the [fs] calls, the clock and the MongoDB insert).

    JavaScript strings are sequences of UTF-16 code units ([list N]); numbers
    are IEEE-754 binary64 values ([spec_float] at precision 53); the request
    body is a finite map from property names to JSON values. *)

From Stdlib Require Import ZArith NArith List Bool Ascii String Lia.
From Stdlib Require Import SpecFloat DecimalString.
From Stdlib Require DecimalPos DecimalN.
From stdpp Require Import base gmap strings list.

Import ListNotations.
Set Warnings "-register-all".
Local Open Scope N_scope.

(** ** JavaScript strings *)

Abbreviation jsstring := (list N).

(** Code units of an ASCII literal. *)
Definition js (s : string) : jsstring :=
  List.map N_of_ascii (list_ascii_of_string s).

Definition in_range (lo hi c : N) : bool := (lo <=? c) && (c <=? hi).

Definition is_upper (c : N) : bool := in_range 65 90 c.
Definition is_lower (c : N) : bool := in_range 97 122 c.
Definition is_digit (c : N) : bool := in_range 48 57 c.

(** ECMAScript [WhiteSpace] and [LineTerminator] code points, the characters
    removed by [String.prototype.trim] and skipped around numeric literals. *)
Definition is_js_whitespace (c : N) : bool :=
  in_range 9 13 c || (c =? 32) || (c =? 160) || (c =? 5760)
  || in_range 8192 8202 c || (c =? 8232) || (c =? 8233) || (c =? 8239)
  || (c =? 8287) || (c =? 12288) || (c =? 65279).

(** [LineTerminator]: the characters the regular expression [.] refuses. *)
Definition is_line_terminator (c : N) : bool :=
  (c =? 10) || (c =? 13) || (c =? 8232) || (c =? 8233).

Fixpoint trimStart (s : jsstring) : jsstring :=
  match s with
  | c :: s' => if is_js_whitespace c then trimStart s' else s
  | [] => []
  end.

Definition trimEnd (s : jsstring) : jsstring := rev (trimStart (rev s)).

(** [String.prototype.trim]. *)
Definition trim (s : jsstring) : jsstring := trimEnd (trimStart s).

(** ** JavaScript numbers: binary64 *)

Abbreviation JsNumber := spec_float.

Definition prec : Z := 53.
Definition emax : Z := 1024.

Definition NaN : JsNumber := S754_nan.
Definition Infinity : JsNumber := S754_infinity false.
Definition NegInfinity : JsNumber := S754_infinity true.
Definition pos_zero : JsNumber := S754_zero false.

(** The Number nearest to the integer [z]. *)
Definition of_Z (z : Z) : JsNumber := binary_normalize prec emax z 0 false.

(** [Number.isNaN] on a value that is already a Number. *)
Definition Number_isNaN (n : JsNumber) : bool :=
  match n with S754_nan => true | _ => false end.

(** [Number.isFinite] on a Number (not called by the server; used to state
    what the server does not check). *)
Definition Number_isFinite (n : JsNumber) : bool :=
  match n with S754_zero _ | S754_finite _ _ _ => true | _ => false end.

(** ** JSON values, as [express.json()] hands them to the handler *)

Inductive JsValue :=
| VUndefined
| VNull
| VBool (b : bool)
| VNumber (n : JsNumber)
| VString (s : jsstring)
| VArray (elems : list JsValue)
| VObject (props : list (jsstring * JsValue)).

(** [typeof v === "string"]. *)
Definition is_string (v : JsValue) : bool :=
  match v with VString _ => true | _ => false end.

(** [v == null]: true of [null] and [undefined] only. *)
Definition loose_eq_null (v : JsValue) : bool :=
  match v with VUndefined | VNull => true | _ => false end.

(** [v === undefined || v === null]. *)
Definition undefined_or_null (v : JsValue) : bool :=
  match v with VUndefined | VNull => true | _ => false end.

(** ** [sanitizeCollectionName] *)

(** A character of the class [[A-Za-z0-9_-]]. *)
Definition is_name_char (c : N) : bool :=
  is_upper c || is_lower c || is_digit c || (c =? 95) || (c =? 45).

(** [/^[A-Za-z0-9_-]{1,100}$/.test(s)]: without the [m] flag, [^] and [$]
    match only at the two ends of the input. *)
Definition name_regex_test (s : jsstring) : bool :=
  (1 <=? length s)%nat && (length s <=? 100)%nat && forallb is_name_char s.

(** The JavaScript [null] result is [None]. *)
Definition sanitizeCollectionName (name : JsValue) : option jsstring :=
  match name with
  | VString s =>
      let trimmed := trim s in
      if negb (name_regex_test trimmed) then None else Some trimmed
  | _ => None
  end.

(** ** [Number(v)]: the ToNumber conversion *)

(** Value of a run of digits in base [base], most significant first. *)
Definition digits_value (base : Z) (ds : list Z) : Z :=
  fold_left (fun acc d => (base * acc + d)%Z) ds 0%Z.

Definition decimal_digit (c : N) : option Z :=
  if is_digit c then Some (Z.of_N c - 48)%Z else None.

Definition hex_digit (c : N) : option Z :=
  if is_digit c then Some (Z.of_N c - 48)%Z
  else if in_range 97 102 c then Some (Z.of_N c - 87)%Z
  else if in_range 65 70 c then Some (Z.of_N c - 55)%Z
  else None.

Definition octal_digit (c : N) : option Z :=
  if in_range 48 55 c then Some (Z.of_N c - 48)%Z else None.

Definition binary_digit (c : N) : option Z :=
  if in_range 48 49 c then Some (Z.of_N c - 48)%Z else None.

(** The longest prefix of [s] made of digits, and what follows it. *)
Fixpoint span_digits (digit : N -> option Z) (s : jsstring)
  : list Z * jsstring :=
  match s with
  | c :: s' =>
      match digit c with
      | Some d => let '(ds, r) := span_digits digit s' in (d :: ds, r)
      | None => ([], s)
      end
  | [] => ([], [])
  end.

(** The Number nearest to [m * 10^e10] (ties to even), with sign [neg];
    [m] is not negative. A negative power of ten is divided out with enough
    extra bits for the quotient to fill the mantissa, the remainder giving
    the rounding location. *)
Definition round_decimal (neg : bool) (m e10 : Z) : JsNumber :=
  match m with
  | Z0 => S754_zero neg
  | Zneg _ => S754_nan
  | Zpos _ =>
      if (0 <=? e10)%Z then
        binary_normalize prec emax
          (if neg then - (m * 10 ^ e10) else m * 10 ^ e10)%Z 0 false
      else
        let d := (10 ^ (- e10))%Z in
        let k := Z.max 0 (Z.log2 d + 56 - Z.log2 m)%Z in
        let '(q, r) := Z.div_eucl (m * 2 ^ k) d in
        let loc :=
          if (r =? 0)%Z then loc_Exact else loc_Inexact (Z.compare (2 * r) d) in
        binary_round_aux prec emax neg q (- k) loc
  end.

(** [ExponentPart] opt, then the end of the literal: the exponent's value. *)
Definition parse_exponent (s : jsstring) : option Z :=
  match s with
  | [] => Some 0%Z
  | c :: s1 =>
      if (c =? 101) || (c =? 69) then
        let '(neg, s2) :=
          match s1 with
          | 43 :: t => (false, t)
          | 45 :: t => (true, t)
          | _ => (false, s1)
          end in
        match span_digits decimal_digit s2 with
        | ((_ :: _) as ds, []) =>
            let e := digits_value 10 ds in Some (if neg then - e else e)%Z
        | _ => None
        end
      else None
  end.

(** [StrUnsignedDecimalLiteral], to the end of the input. *)
Definition parse_unsigned_decimal (neg : bool) (s : jsstring)
  : option JsNumber :=
  if bool_decide (s = js "Infinity") then Some (S754_infinity neg)
  else
    let '(ip, r1) := span_digits decimal_digit s in
    match r1 with
    | 46 :: r2 =>
        let '(fp, r3) := span_digits decimal_digit r2 in
        match ip, fp with
        | [], [] => None
        | _, _ =>
            e ← parse_exponent r3;
            Some (round_decimal neg (digits_value 10 (ip ++ fp))
                    (e - Z.of_nat (length fp)))
        end
    | _ =>
        match ip with
        | [] => None
        | _ => e ← parse_exponent r1;
               Some (round_decimal neg (digits_value 10 ip) e)
        end
    end.

(** [NonDecimalIntegerLiteral]: [0x], [0o] and [0b] literals, unsigned. *)
Definition parse_non_decimal (s : jsstring) : option JsNumber :=
  match s with
  | 48 :: p :: ds =>
      let radix :=
        if (p =? 120) || (p =? 88) then Some (16%Z, hex_digit)
        else if (p =? 111) || (p =? 79) then Some (8%Z, octal_digit)
        else if (p =? 98) || (p =? 66) then Some (2%Z, binary_digit)
        else None in
      '(base, digit) ← radix;
      match span_digits digit ds with
      | ((_ :: _) as vs, []) => Some (of_Z (digits_value base vs))
      | _ => None
      end
  | _ => None
  end.

(** [StringToNumber]: surrounding white space is dropped, the empty string is
    [+0], and anything that is not a [StrNumericLiteral] is [NaN]. *)
Definition StringToNumber (s : jsstring) : JsNumber :=
  match trim s with
  | [] => pos_zero
  | t =>
      match parse_non_decimal t with
      | Some n => n
      | None =>
          let r :=
            match t with
            | 43 :: u => parse_unsigned_decimal false u
            | 45 :: u => parse_unsigned_decimal true u
            | _ => parse_unsigned_decimal false t
            end in
          default NaN r
      end
  end.

(** An evaluation either completes with a value or throws an error, of
    which the handler reads the message. *)
Inductive Completion (A : Type) :=
| Normal (a : A)
| Throw (message : string).
Arguments Normal {A} a.
Arguments Throw {A} message.

(** An object of a JSON body has an own property [key]. *)
Definition has_own (key : jsstring) (props : list (jsstring * JsValue)) : bool :=
  existsb (fun kv => bool_decide (kv.1 = key)) props.

(** [String(v)] throws: a JSON object with an own [toString] property (never
    callable) has no primitive value, and an array's [toString] joins the
    strings of its elements. *)
Fixpoint to_string_throws (v : JsValue) : bool :=
  match v with
  | VArray elems =>
      (fix any (l : list JsValue) : bool :=
         match l with
         | [] => false
         | x :: l' => to_string_throws x || any l'
         end) elems
  | VObject props => has_own (js "toString") props
  | _ => false
  end.

Definition cannot_convert : string := "Cannot convert object to primitive value".

(** [StringToNumber(String(v))], without building the string: a Number
    prints to a literal that reads back as itself (with [-0] printing as
    ["0"]); an array of two or more elements prints with a comma, which no
    numeric literal has; a plain object prints as ["[object Object]"]. *)
Fixpoint number_of_string_of (v : JsValue) : Completion JsNumber :=
  match v with
  | VUndefined | VNull | VBool _ => Normal NaN
  | VNumber (S754_zero _) => Normal pos_zero
  | VNumber n => Normal n
  | VString s => Normal (StringToNumber s)
  | VArray [] => Normal pos_zero
  | VArray [x] =>
      match x with
      | VUndefined | VNull => Normal pos_zero
      | _ => number_of_string_of x
      end
  | VArray (_ :: _ :: _) =>
      if to_string_throws v then Throw cannot_convert else Normal NaN
  | VObject props =>
      if has_own (js "toString") props then Throw cannot_convert
      else Normal NaN
  end.

(** [Number(v)]. Arrays and objects go through ToPrimitive, which for the
    values of a JSON body ends in the same string as [String(v)]. *)
Definition ToNumber (v : JsValue) : Completion JsNumber :=
  match v with
  | VUndefined => Normal NaN
  | VNull => Normal pos_zero
  | VBool b => Normal (if b then of_Z 1 else pos_zero)
  | VNumber n => Normal n
  | VString s => Normal (StringToNumber s)
  | VArray _ | VObject _ => number_of_string_of v
  end.

(** ** [Buffer.from(s, "base64")] *)

(** Node's decoding table: the standard and the URL-safe alphabet. *)
Definition unbase64 (c : N) : option N :=
  if is_upper c then Some (c - 65)
  else if is_lower c then Some (c - 71)
  else if is_digit c then Some (c + 4)
  else if (c =? 43) || (c =? 45) then Some 62
  else if (c =? 47) || (c =? 95) then Some 63
  else None.

(** Node's decoder never fails on a string: it reads the low byte of each
    code unit, skips what is not in the table, stops at the first [=], and
    emits a byte as soon as its bits are there. [phase] counts the sextets
    of the current group already read and [hi] is the last of them. *)
Fixpoint base64_decode (phase : nat) (hi : N) (s : jsstring) : list N :=
  match s with
  | [] => []
  | c :: s' =>
      let c8 := c mod 256 in
      match unbase64 c8 with
      | Some lo =>
          match phase with
          | O => base64_decode 1 lo s'
          | 1%nat =>
              N.lor (N.shiftl (N.land hi 63) 2) (N.shiftr (N.land lo 48) 4)
                :: base64_decode 2 lo s'
          | 2%nat =>
              N.lor (N.shiftl (N.land hi 15) 4) (N.shiftr (N.land lo 60) 2)
                :: base64_decode 3 lo s'
          | _ =>
              N.lor (N.shiftl (N.land hi 3) 6) (N.land lo 63)
                :: base64_decode 0 lo s'
          end
      | None => if c8 =? 61 then [] else base64_decode phase hi s'
      end
  end.

Definition Buffer_from_base64 (s : jsstring) : list N := base64_decode 0 0 s.

(** ** [decodeBase64Image] *)

(** A character of the class [[A-Za-z-+/]]. *)
Definition is_mime_char (c : N) : bool :=
  is_upper c || is_lower c || (c =? 45) || (c =? 43) || (c =? 47).

Fixpoint span (p : N -> bool) (s : jsstring) : jsstring * jsstring :=
  match s with
  | c :: s' =>
      if p c then let '(a, b) := span p s' in (c :: a, b) else ([], s)
  | [] => ([], [])
  end.

Fixpoint strip_prefix (pre s : jsstring) : option jsstring :=
  match pre, s with
  | [], _ => Some s
  | a :: pre', c :: s' => if a =? c then strip_prefix pre' s' else None
  | _ :: _, [] => None
  end.

(** [s.match(/^data:([A-Za-z-+/]+);base64,(.+)$/)]: the two groups of the
    match, if there is one. The first group cannot stop early, because the
    character after it must be [;], which is not in its class; [.] takes
    any code unit but a line terminator. *)
Definition match_data_uri (s : jsstring) : option (jsstring * jsstring) :=
  r ← strip_prefix (js "data:") s;
  let '(mime, r1) := span is_mime_char r in
  match mime with
  | [] => None
  | _ :: _ =>
      payload ← strip_prefix (js ";base64,") r1;
      match payload with
      | [] => None
      | _ :: _ =>
          if forallb (fun c => negb (is_line_terminator c)) payload
          then Some (mime, payload) else None
      end
  end.

(** The message of the TypeError that [dataString.match(...)] throws on a
    value that is not a string. *)
Definition match_error (dataString : JsValue) : string :=
  match dataString with
  | VUndefined => "Cannot read properties of undefined (reading 'match')"
  | VNull => "Cannot read properties of null (reading 'match')"
  | _ => "dataString.match is not a function"
  end.

(** The body of the [try] block: [Normal buffer], or the TypeError of calling
    [match] on a value that is not a string. *)
Definition decode_try (dataString : JsValue) : Completion (list N) :=
  match dataString with
  | VString s =>
      let base64Data :=
        match match_data_uri s with
        | Some (_, payload) => payload
        | None => s
        end in
      Normal (Buffer_from_base64 base64Data)
  | _ => Throw (match_error dataString)
  end.

(** ** The world the handler runs in *)

(** The document handed to [insertOne], with the [_id] the driver adds. *)
Record Document := {
  doc_id : N;
  doc_field_id : jsstring;
  doc_soil_moisture : JsNumber;
  doc_temperature : JsNumber;
  doc_humidity : JsNumber;
  doc_image_base64 : JsValue;
  doc_saved_file : option jsstring;
  doc_created_at : N
}.

(** The local disk: directories, files with their bytes, and the error (if
    any) with which [mkdirSync] or [writeFileSync] fails; the error stands
    for every reason the call can have (permissions, a parent that is
    missing or not a directory, a full disk). [writeFileSync] opens the file
    with flag [w] and then writes, so [fs_write_partial] says what a failing
    write leaves behind: [None] when the file could not be opened and is
    left as it was, [Some n] when it was created or truncated and [n] bytes
    went in before the error. *)
Record FileSystem := {
  fs_dirs : gset jsstring;
  fs_files : gmap jsstring (list N);
  fs_mkdir_error : option string;
  fs_write_error : option string;
  fs_write_partial : option nat
}.

(** The MongoDB deployment behind [client]: the documents of each collection
    of each database in insertion order, the next identifier the driver
    generates, and the error (if any) with which an insert is rejected. *)
Record Database := {
  db_collections : gmap (jsstring * jsstring) (list Document);
  db_next_id : N;
  db_error : option string
}.

Inductive LogEntry :=
| ConsoleError (what detail : string)
| ConsoleWarn (what detail : string)
| ConsoleLogInserted (collection : jsstring) (id : N) (soil temp hum : JsNumber).

(** [w_date_now] is what [Date.now()] answers and [w_new_date] what
    [new Date()] answers during the request. *)
Record World := {
  w_fs : FileSystem;
  w_db : Database;
  w_date_now : N;
  w_new_date : N;
  w_log : list LogEntry
}.

Definition set_fs (f : FileSystem) (w : World) : World :=
  {| w_fs := f; w_db := w_db w; w_date_now := w_date_now w;
     w_new_date := w_new_date w; w_log := w_log w |}.

Definition set_db (d : Database) (w : World) : World :=
  {| w_fs := w_fs w; w_db := d; w_date_now := w_date_now w;
     w_new_date := w_new_date w; w_log := w_log w |}.

Definition add_log (e : LogEntry) (w : World) : World :=
  {| w_fs := w_fs w; w_db := w_db w; w_date_now := w_date_now w;
     w_new_date := w_new_date w; w_log := w_log w ++ [e] |}.

(** ** Computations that read and change the world and may throw *)

Definition M (A : Type) : Type := World -> Completion A * World.

Definition ret {A} (a : A) : M A := fun w => (Normal a, w).

Definition bind {A B} (m : M A) (k : A -> M B) : M B :=
  fun w =>
    match m w with
    | (Normal a, w') => k a w'
    | (Throw e, w') => (Throw e, w')
    end.

Definition lift {A} (c : Completion A) : M A := fun w => (c, w).

(** [try { m } catch (err) { h(err.message) }]. *)
Definition try_catch {A} (m : M A) (h : string -> M A) : M A :=
  fun w =>
    match m w with
    | (Normal a, w') => (Normal a, w')
    | (Throw e, w') => h e w'
    end.

Definition console (e : LogEntry) : M unit := fun w => (Normal tt, add_log e w).

Declare Scope js_scope.
Delimit Scope js_scope with js.
Notation "'let*' x := c 'in' k" := (bind c (fun x => k))
  (at level 10, x name, c at level 100, k at level 200) : js_scope.
Notation "c ;; k" := (bind c (fun _ => k))
  (at level 100, k at level 200, right associativity) : js_scope.
Local Open Scope js_scope.

(** [decodeBase64Image]: [Some] bytes for [{ buffer }], [None] for
    [{ buffer: null }]. *)
Definition decodeBase64Image (dataString : JsValue) : M (option (list N)) :=
  try_catch
    (let* buffer := lift (decode_try dataString) in ret (Some buffer))
    (fun message =>
       console (ConsoleError "Error decoding base64 image:" message);;
       ret None).

(** ** The calls into [fs], [path], the clock and the driver *)

Definition existsSync (p : jsstring) : M bool :=
  fun w =>
    (Normal (bool_decide (p ∈ fs_dirs (w_fs w))
             || bool_decide (is_Some (fs_files (w_fs w) !! p))), w).

(** [fs.mkdirSync(p, { recursive: true })]. *)
Definition mkdirSync (p : jsstring) : M unit :=
  fun w =>
    let f := w_fs w in
    match fs_mkdir_error f with
    | Some e => (Throw e, w)
    | None =>
        (Normal tt,
         set_fs {| fs_dirs := {[ p ]} ∪ fs_dirs f; fs_files := fs_files f;
                   fs_mkdir_error := fs_mkdir_error f;
                   fs_write_error := fs_write_error f;
                   fs_write_partial := fs_write_partial f |} w)
    end.

(** The world a failing [writeFileSync(p, data)] leaves: as it was when
    the file could not be opened, with the first [n] bytes of [data] at [p]
    when the error came after the file was created or truncated. *)
Definition after_failed_write (p : jsstring) (data : list N) (w : World)
  : World :=
  let f := w_fs w in
  match fs_write_partial f with
  | None => w
  | Some n =>
      set_fs {| fs_dirs := fs_dirs f;
                fs_files := <[ p := take n data ]> (fs_files f);
                fs_mkdir_error := fs_mkdir_error f;
                fs_write_error := fs_write_error f;
                fs_write_partial := fs_write_partial f |} w
  end.

Definition writeFileSync (p : jsstring) (data : list N) : M unit :=
  fun w =>
    let f := w_fs w in
    match fs_write_error f with
    | Some e => (Throw e, after_failed_write p data w)
    | None =>
        (Normal tt,
         set_fs {| fs_dirs := fs_dirs f; fs_files := <[ p := data ]> (fs_files f);
                   fs_mkdir_error := fs_mkdir_error f;
                   fs_write_error := fs_write_error f;
                   fs_write_partial := fs_write_partial f |} w)
    end.

Definition Date_now : M N := fun w => (Normal (w_date_now w), w).
Definition new_Date : M N := fun w => (Normal (w_new_date w), w).

(** The decimal digits of a non-negative integer, as a template literal
    prints it. *)
Definition decimal (n : N) : jsstring := js (NilZero.string_of_uint (N.to_uint n)).

Definition ends_with_slash (p : jsstring) : bool :=
  match rev p with 47 :: _ => true | _ => false end.

(** POSIX [path.join(dir, name)] for a normalised absolute [dir] and a [name]
    without [/], [.] or [..] segments: one separator between the two. *)
Definition path_join (dir name : jsstring) : jsstring :=
  if ends_with_slash dir then dir ++ name else dir ++ 47 :: name.

(** [collection.insertOne(doc)] on collection [coll] of database [dbname]:
    resolves to the generated [insertedId], or rejects. *)
Definition insertOne (dbname coll : jsstring) (doc : N -> Document) : M N :=
  fun w =>
    let d := w_db w in
    match db_error d with
    | Some e => (Throw e, w)
    | None =>
        let id := db_next_id d in
        let old := default [] (db_collections d !! (dbname, coll)) in
        (Normal id,
         set_db {| db_collections :=
                     <[ (dbname, coll) := old ++ [doc id] ]> (db_collections d);
                   db_next_id := id + 1;
                   db_error := db_error d |} w)
    end.

(** ** The process and its configuration *)

(** [env_DATABASE_NAME] is [process.env.DATABASE_NAME], [dirname] is
    [__dirname] (the directory of [server.js]) and [cwd] the working
    directory the process was started in. *)
Record Process := {
  env_DATABASE_NAME : option jsstring;
  dirname : jsstring;
  cwd : jsstring
}.

(** [process.env.DATABASE_NAME || "AgriVision_IoT"]. *)
Definition DATABASE_NAME (P : Process) : jsstring :=
  match env_DATABASE_NAME P with
  | Some ((_ :: _) as name) => name
  | _ => js "AgriVision_IoT"
  end.

(** ** The response *)

Inductive Json :=
| ErrorJson (error : string)
| ServerErrorJson (error details : string)
| SuccessJson (insertedId : N) (collection : jsstring)
    (saved_file : option jsstring).

Record Response := { status : N; json : Json }.

(** The four validation failures and the message each is reported with. *)
Inductive ValidationKind :=
| InvalidFieldId
| MissingImage
| MissingSensorValue
| NonNumericSensorValue.

Definition error_message (k : ValidationKind) : string :=
  match k with
  | InvalidFieldId =>
      "Invalid field_id. Use only letters, numbers, - and _ (max 100 chars)."
  | MissingImage => "image_base64 is required"
  | MissingSensorValue => "soil_moisture, temperature and humidity are required"
  | NonNumericSensorValue => "Sensor values must be numeric"
  end.

(** [res.status(400).json({ error })]. *)
Definition bad_request (k : ValidationKind) : Response :=
  {| status := 400; json := ErrorJson (error_message k) |}.

(** ** [POST /api/store-reading] *)

(** A property of [req.body], the object [express.json()] parsed; an absent
    one reads as [undefined]. *)
Definition prop (body : gmap string JsValue) (key : string) : JsValue :=
  default VUndefined (body !! key).

Section Handler.
Variable P : Process.

Definition uploadsDir : jsstring := path_join (dirname P) (js "uploads").

Definition image_file_name (collectionName : jsstring) (timestamp : N)
  : jsstring :=
  collectionName ++ js "_" ++ decimal timestamp ++ js ".jpg".

(** The [try] block that saves the image, answering the value
    [savedFilename] has when the block is left: still [null] if [mkdirSync]
    throws, already the path if [writeFileSync] throws. *)
Definition save_image (collectionName : jsstring) (buffer : option (list N))
  : M (option jsstring) :=
  match buffer with
  | None => ret None
  | Some data =>
      try_catch
        (let* there := existsSync uploadsDir in
         (if negb there then mkdirSync uploadsDir else ret tt);;
         let* timestamp := Date_now in
         let savedFilename :=
           path_join uploadsDir (image_file_name collectionName timestamp) in
         try_catch
           (writeFileSync savedFilename data;; ret (Some savedFilename))
           (fun message =>
              console (ConsoleWarn "Could not save image locally:" message);;
              ret (Some savedFilename)))
        (fun message =>
           console (ConsoleWarn "Could not save image locally:" message);;
           ret None)
  end.

Definition store_reading (body : gmap string JsValue) : M Response :=
  try_catch
    (let field_id := prop body "field_id" in
     let soil_moisture := prop body "soil_moisture" in
     let temperature := prop body "temperature" in
     let humidity := prop body "humidity" in
     let image_base64 := prop body "image_base64" in
     match sanitizeCollectionName field_id with
     | None | Some [] => ret (bad_request InvalidFieldId)
     | Some ((_ :: _) as collectionName) =>
         if loose_eq_null image_base64 then ret (bad_request MissingImage)
         else if existsb undefined_or_null [soil_moisture; temperature; humidity]
         then ret (bad_request MissingSensorValue)
         else
           let* soil := lift (ToNumber soil_moisture) in
           let* temp := lift (ToNumber temperature) in
           let* hum := lift (ToNumber humidity) in
           if existsb Number_isNaN [soil; temp; hum]
           then ret (bad_request NonNumericSensorValue)
           else
             let* buffer := decodeBase64Image image_base64 in
             let* savedFilename := save_image collectionName buffer in
             let* created_at := new_Date in
             let doc (id : N) :=
               {| doc_id := id;
                  doc_field_id := collectionName;
                  doc_soil_moisture := soil;
                  doc_temperature := temp;
                  doc_humidity := hum;
                  doc_image_base64 := image_base64;
                  doc_saved_file := savedFilename;
                  doc_created_at := created_at |} in
             let* insertedId :=
               insertOne (DATABASE_NAME P) collectionName doc in
             console (ConsoleLogInserted collectionName insertedId soil temp hum);;
             ret {| status := 200;
                    json := SuccessJson insertedId collectionName savedFilename |}
     end)
    (fun message =>
       console (ConsoleError "ERROR /api/store-reading:" message);;
       ret {| status := 500; json := ServerErrorJson "Server error" message |}).
End Handler.

(** ** The handler in stages

    The same steps under names of their own, for the statements below. *)

Section Views.
Variable P : Process.

(** What follows the four checks. *)
Definition persist (collectionName : jsstring) (image_base64 : JsValue)
    (soil temp hum : JsNumber) : M Response :=
  let* buffer := decodeBase64Image image_base64 in
  let* savedFilename := save_image P collectionName buffer in
  let* created_at := new_Date in
  let doc (id : N) :=
    {| doc_id := id;
       doc_field_id := collectionName;
       doc_soil_moisture := soil;
       doc_temperature := temp;
       doc_humidity := hum;
       doc_image_base64 := image_base64;
       doc_saved_file := savedFilename;
       doc_created_at := created_at |} in
  let* insertedId := insertOne (DATABASE_NAME P) collectionName doc in
  console (ConsoleLogInserted collectionName insertedId soil temp hum);;
  ret {| status := 200;
         json := SuccessJson insertedId collectionName savedFilename |}.

(** The [catch] clause of the handler. *)
Definition server_error (message : string) : M Response :=
  console (ConsoleError "ERROR /api/store-reading:" message);;
  ret {| status := 500; json := ServerErrorJson "Server error" message |}.

(** Where the image of a request for [collectionName] is written. *)
Definition image_path (collectionName : jsstring) (w : World) : jsstring :=
  path_join (uploadsDir P) (image_file_name collectionName (w_date_now w)).

(** The uploads directory is there or can be made. *)
Definition uploads_available (w : World) : Prop :=
  uploadsDir P ∈ fs_dirs (w_fs w)
  \/ is_Some (fs_files (w_fs w) !! uploadsDir P)
  \/ fs_mkdir_error (w_fs w) = None.

(** What a computation leaves alone: the database and the clock. *)
Definition same_db_clock (w w' : World) : Prop :=
  w_db w' = w_db w /\ w_date_now w' = w_date_now w
  /\ w_new_date w' = w_new_date w.

Definition image_stage (collectionName : jsstring) (image_base64 : JsValue)
  : M (option jsstring) :=
  let* buffer := decodeBase64Image image_base64 in
  save_image P collectionName buffer.

(** The document of a request. *)
Definition reading (coll : jsstring) (image : JsValue) (soil temp hum : JsNumber)
    (saved : option jsstring) (created_at id : N) : Document :=
  {| doc_id := id; doc_field_id := coll; doc_soil_moisture := soil;
     doc_temperature := temp; doc_humidity := hum; doc_image_base64 := image;
     doc_saved_file := saved; doc_created_at := created_at |}.

(** The database after [doc] has been inserted in collection [coll]. *)
Definition inserted (coll : jsstring) (doc : Document) (d : Database)
  : Database :=
  {| db_collections :=
       <[ (DATABASE_NAME P, coll) :=
            default [] (db_collections d !! (DATABASE_NAME P, coll)) ++ [doc] ]>
         (db_collections d);
     db_next_id := db_next_id d + 1;
     db_error := db_error d |}.

End Views.

(** ** Sample inputs *)

Definition empty_fs : FileSystem :=
  {| fs_dirs := ∅; fs_files := ∅; fs_mkdir_error := None; fs_write_error := None;
     fs_write_partial := None |}.

Definition empty_db : Database :=
  {| db_collections := ∅; db_next_id := 1; db_error := None |}.

Definition sample_world : World :=
  {| w_fs := empty_fs; w_db := empty_db; w_date_now := 1700000000000;
     w_new_date := 1700000000002; w_log := [] |}.

Definition sample_process : Process :=
  {| env_DATABASE_NAME := None; dirname := js "/srv/app"; cwd := js "/srv" |}.

(** The request of the specification's first scenario. *)
Definition sample_body : gmap string JsValue :=
  <[ "field_id" := VString (js "Field_01") ]>
  (<[ "soil_moisture" := VString (js "42.5") ]>
  (<[ "temperature" := VNumber (of_Z 21) ]>
  (<[ "humidity" := VNumber (of_Z 60) ]>
  (<[ "image_base64" := VString (js "QQ==") ]> ∅)))).

(** Requests used as instances below. *)
Definition nan_body : gmap string JsValue :=
  <[ "soil_moisture" := VString (js "abc") ]> sample_body.

Definition bad_id_body : gmap string JsValue :=
  <[ "field_id" := VString (js "bad id!") ]> (delete "image_base64" sample_body).

Definition infinite_body : gmap string JsValue :=
  <[ "soil_moisture" := VString (js "Infinity") ]> sample_body.

Definition renamed_db_body : gmap string JsValue :=
  <[ "database_name" := VString (js "OtherDb") ]> sample_body.

(** A request whose image is the number 7. *)
Definition numeric_image_body : gmap string JsValue :=
  <[ "image_base64" := VNumber (of_Z 7) ]> sample_body.


(** ** The notions the statements use *)

(** The text handed to the base64 decoder: the second group of the data-URI
    pattern when it matches, the whole string otherwise. *)
Definition base64_part (s : jsstring) : jsstring :=
  match match_data_uri s with
  | Some (_, payload) => payload
  | None => s
  end.

(** ASCII letter, digit, underscore or hyphen. *)
Definition NameChar (c : N) : Prop :=
  65 <= c <= 90 \/ 97 <= c <= 122 \/ 48 <= c <= 57 \/ c = 95 \/ c = 45.

(** What the pattern [^[A-Za-z0-9_-]{1,100}$] accepts. *)
Definition well_formed_name (s : jsstring) : Prop :=
  (1 <= length s <= 100)%nat /\ Forall NameChar s.

(** The field identifiers the handler is meant to accept. *)
Definition valid_field_id (v : JsValue) : Prop :=
  exists s, v = VString s /\ well_formed_name (trim s).

(** A check of the validation pipeline fails on a request. The numeric check
    is made on the three coerced values, so it fails only once all three
    coercions have completed. *)
Definition fails_check (body : gmap string JsValue) (k : ValidationKind) : Prop :=
  match k with
  | InvalidFieldId => sanitizeCollectionName (prop body "field_id") = None
  | MissingImage => loose_eq_null (prop body "image_base64") = true
  | MissingSensorValue =>
      existsb undefined_or_null
        [prop body "soil_moisture"; prop body "temperature"; prop body "humidity"]
      = true
  | NonNumericSensorValue =>
      exists soil temp hum,
        ToNumber (prop body "soil_moisture") = Normal soil
        /\ ToNumber (prop body "temperature") = Normal temp
        /\ ToNumber (prop body "humidity") = Normal hum
        /\ existsb Number_isNaN [soil; temp; hum] = true
  end.

(** The place of a check in the pipeline. *)
Definition check_order (k : ValidationKind) : nat :=
  match k with
  | InvalidFieldId => 0
  | MissingImage => 1
  | MissingSensorValue => 2
  | NonNumericSensorValue => 3
  end.

(** The text [data:<mime>;base64,<payload>]. *)
Definition data_uri (mime payload : jsstring) : jsstring :=
  js "data:" ++ mime ++ js ";base64," ++ payload.

Definition Digit (c : N) : Prop := 48 <= c <= 57.

(** A path [uploads/Field_01_<digits>.jpg] relative to the working
    directory, written as such or resolved against it. *)
Definition relative_upload_path (P : Process) (saved : jsstring) : Prop :=
  exists digits,
    Forall Digit digits
    /\ (saved = js "uploads/Field_01_" ++ digits ++ js ".jpg"
        \/ saved = path_join (cwd P) (js "uploads/Field_01_" ++ digits ++ js ".jpg")).



(** ** Requests past validation, and worlds where a call fails *)

(** The request passes the four checks: [coll] is its collection name and
    [soil], [temp], [hum] are its coerced sensor values. *)
Definition accepted (body : gmap string JsValue) (coll : jsstring)
    (soil temp hum : JsNumber) : Prop :=
  sanitizeCollectionName (prop body "field_id") = Some coll
  /\ loose_eq_null (prop body "image_base64") = false
  /\ existsb undefined_or_null
       [prop body "soil_moisture"; prop body "temperature"; prop body "humidity"]
     = false
  /\ ToNumber (prop body "soil_moisture") = Normal soil
  /\ ToNumber (prop body "temperature") = Normal temp
  /\ ToNumber (prop body "humidity") = Normal hum
  /\ existsb Number_isNaN [soil; temp; hum] = false.

(** [fs.existsSync(uploadsDir)]. *)
Definition uploads_exist (P : Process) (w : World) : bool :=
  bool_decide (uploadsDir P ∈ fs_dirs (w_fs w))
  || bool_decide (is_Some (fs_files (w_fs w) !! uploadsDir P)).

(** The disk after the directory step: the uploads directory is added when
    it was not there. *)
Definition with_uploads (P : Process) (w : World) : World :=
  if uploads_exist P w then w
  else set_fs {| fs_dirs := {[ uploadsDir P ]} ∪ fs_dirs (w_fs w);
                 fs_files := fs_files (w_fs w);
                 fs_mkdir_error := fs_mkdir_error (w_fs w);
                 fs_write_error := fs_write_error (w_fs w);
     fs_write_partial := fs_write_partial (w_fs w) |} w.

(** A sensor value that is present but blank: an empty or all-whitespace
    string, [false], or an empty array. *)
Definition blank_value (v : JsValue) : Prop :=
  (exists ws, v = VString ws /\ Forall (fun c => is_js_whitespace c = true) ws)
  \/ v = VBool false \/ v = VArray [].

(** The five properties of the body the handler reads. *)
Definition read_keys : list string :=
  ["field_id"; "soil_moisture"; "temperature"; "humidity"; "image_base64"].

Definition AllWhitespace (s : jsstring) : Prop :=
  Forall (fun c => is_js_whitespace c = true) s.

Definition failing_fs (mkdir_error write_error : option string)
    (write_partial : option nat) : FileSystem :=
  {| fs_dirs := ∅; fs_files := ∅; fs_mkdir_error := mkdir_error;
     fs_write_error := write_error; fs_write_partial := write_partial |}.

Definition write_failing_world : World :=
  set_fs (failing_fs None (Some "ENOSPC: no space left on device"%string)
            (Some 0%nat))
    sample_world.

Definition mkdir_failing_world : World :=
  set_fs (failing_fs (Some "EACCES: permission denied"%string) None None)
    sample_world.

Definition db_failing_world : World :=
  set_db {| db_collections := ∅; db_next_id := 1;
            db_error := Some "connection refused"%string |} sample_world.

Definition second_image_body : gmap string JsValue :=
  <[ "image_base64" := VString (js "data:image/jpeg;base64,Qg==") ]> sample_body.

Definition empty_env_process : Process :=
  {| env_DATABASE_NAME := Some []; dirname := js "/srv/app"; cwd := js "/srv" |}.

Definition empty_image_body : gmap string JsValue :=
  <[ "image_base64" := VString [] ]> sample_body.

Definition spaced_body : gmap string JsValue :=
  <[ "field_id" := VString (js "  Field_01 ") ]> sample_body.

Definition blank_body : gmap string JsValue :=
  <[ "soil_moisture" := VString (js "  ") ]> sample_body.

(** * Properties *)

(** ** Characters and the collection-name pattern *)

Lemma is_name_char_spec c : is_name_char c = true <-> NameChar c.
Proof.
  unfold is_name_char, is_upper, is_lower, is_digit, in_range, NameChar.
  rewrite !orb_true_iff, !andb_true_iff, !N.leb_le, !N.eqb_eq. tauto.
Qed.

Lemma forallb_name_chars s :
  forallb is_name_char s = true <-> Forall NameChar s.
Proof.
  induction s as [|c s IH]; simpl.
  - split; [constructor | reflexivity].
  - rewrite andb_true_iff, IH, is_name_char_spec, Forall_cons. tauto.
Qed.

Lemma name_regex_test_spec s :
  name_regex_test s = true <-> well_formed_name s.
Proof.
  unfold name_regex_test, well_formed_name.
  rewrite !andb_true_iff, !Nat.leb_le, forallb_name_chars. tauto.
Qed.

Lemma sanitize_some v t :
  sanitizeCollectionName v = Some t <->
  exists s, v = VString s /\ t = trim s /\ well_formed_name t.
Proof.
  split.
  - destruct v; simpl; try discriminate.
    destruct (name_regex_test (trim s)) eqn:E; simpl; [|discriminate].
    intros [= <-]. exists s. by rewrite <- name_regex_test_spec.
  - intros (s & -> & -> & H). apply name_regex_test_spec in H.
    simpl. by rewrite H.
Qed.

Lemma sanitize_valid v :
  valid_field_id v <-> exists t, sanitizeCollectionName v = Some t.
Proof.
  split.
  - intros (s & -> & H). exists (trim s). apply sanitize_some. eauto.
  - intros (t & H). apply sanitize_some in H as (s & -> & -> & H). by exists s.
Qed.

Lemma sanitize_none v :
  sanitizeCollectionName v = None <-> ~ valid_field_id v.
Proof.
  rewrite sanitize_valid. destruct (sanitizeCollectionName v) as [t|].
  - split; [discriminate | intros []; eauto].
  - split; [intros _ [t H]; discriminate | reflexivity].
Qed.

Lemma sanitize_nonempty v t :
  sanitizeCollectionName v = Some t -> exists c t', t = c :: t'.
Proof.
  intros H. apply sanitize_some in H as (s & _ & _ & [[Hlen _] _]).
  destruct t as [|c t']; simpl in Hlen; [lia | eauto].
Qed.

(** ** The stages of the handler *)

Section Stages.
Variable P : Process.

Lemma store_reading_invalid body w :
  sanitizeCollectionName (prop body "field_id") = None ->
  store_reading P body w = (Normal (bad_request InvalidFieldId), w).
Proof.
  intros H. cbv beta zeta delta [store_reading try_catch]. by rewrite H.
Qed.

Lemma store_reading_missing_image body w coll :
  sanitizeCollectionName (prop body "field_id") = Some coll ->
  loose_eq_null (prop body "image_base64") = true ->
  store_reading P body w = (Normal (bad_request MissingImage), w).
Proof.
  intros H Hi. destruct (sanitize_nonempty _ _ H) as (c & t & ->).
  cbv beta zeta delta [store_reading try_catch]. by rewrite H, Hi.
Qed.

Lemma store_reading_missing_sensor body w coll :
  sanitizeCollectionName (prop body "field_id") = Some coll ->
  loose_eq_null (prop body "image_base64") = false ->
  existsb undefined_or_null
    [prop body "soil_moisture"; prop body "temperature"; prop body "humidity"]
    = true ->
  store_reading P body w = (Normal (bad_request MissingSensorValue), w).
Proof.
  intros H Hi Hs. destruct (sanitize_nonempty _ _ H) as (c & t & ->).
  cbv beta zeta delta [store_reading try_catch]. by rewrite H, Hi, Hs.
Qed.

(** Past the presence checks, the three coercions run in order. *)
Lemma store_reading_coerce body w coll :
  sanitizeCollectionName (prop body "field_id") = Some coll ->
  loose_eq_null (prop body "image_base64") = false ->
  existsb undefined_or_null
    [prop body "soil_moisture"; prop body "temperature"; prop body "humidity"]
    = false ->
  store_reading P body w =
  try_catch
    (let* soil := lift (ToNumber (prop body "soil_moisture")) in
     let* temp := lift (ToNumber (prop body "temperature")) in
     let* hum := lift (ToNumber (prop body "humidity")) in
     if existsb Number_isNaN [soil; temp; hum]
     then ret (bad_request NonNumericSensorValue)
     else persist P coll (prop body "image_base64") soil temp hum)
    server_error w.
Proof.
  intros H Hi Hs. destruct (sanitize_nonempty _ _ H) as (c & t & ->).
  cbv beta zeta delta [store_reading try_catch]. by rewrite H, Hi, Hs.
Qed.

Lemma store_reading_non_numeric body w coll soil temp hum :
  sanitizeCollectionName (prop body "field_id") = Some coll ->
  loose_eq_null (prop body "image_base64") = false ->
  existsb undefined_or_null
    [prop body "soil_moisture"; prop body "temperature"; prop body "humidity"]
    = false ->
  ToNumber (prop body "soil_moisture") = Normal soil ->
  ToNumber (prop body "temperature") = Normal temp ->
  ToNumber (prop body "humidity") = Normal hum ->
  existsb Number_isNaN [soil; temp; hum] = true ->
  store_reading P body w = (Normal (bad_request NonNumericSensorValue), w).
Proof.
  intros H Hi Hs H1 H2 H3 Hn.
  rewrite (store_reading_coerce _ _ _ H Hi Hs).
  unfold try_catch, bind, lift. by rewrite H1, H2, H3, Hn.
Qed.

Lemma store_reading_valid body w coll soil temp hum :
  sanitizeCollectionName (prop body "field_id") = Some coll ->
  loose_eq_null (prop body "image_base64") = false ->
  existsb undefined_or_null
    [prop body "soil_moisture"; prop body "temperature"; prop body "humidity"]
    = false ->
  ToNumber (prop body "soil_moisture") = Normal soil ->
  ToNumber (prop body "temperature") = Normal temp ->
  ToNumber (prop body "humidity") = Normal hum ->
  existsb Number_isNaN [soil; temp; hum] = false ->
  store_reading P body w =
  try_catch (persist P coll (prop body "image_base64") soil temp hum)
    server_error w.
Proof.
  intros H Hi Hs H1 H2 H3 Hn.
  rewrite (store_reading_coerce _ _ _ H Hi Hs).
  unfold try_catch, bind, lift. by rewrite H1, H2, H3, Hn.
Qed.

(** A coercion that throws is answered by the [catch] clause. *)
Lemma store_reading_coercion_throws body w coll message :
  sanitizeCollectionName (prop body "field_id") = Some coll ->
  loose_eq_null (prop body "image_base64") = false ->
  existsb undefined_or_null
    [prop body "soil_moisture"; prop body "temperature"; prop body "humidity"]
    = false ->
  (ToNumber (prop body "soil_moisture") = Throw message
   \/ (exists soil, ToNumber (prop body "soil_moisture") = Normal soil)
      /\ (ToNumber (prop body "temperature") = Throw message
          \/ (exists temp, ToNumber (prop body "temperature") = Normal temp)
             /\ ToNumber (prop body "humidity") = Throw message)) ->
  store_reading P body w = server_error message w.
Proof.
  intros H Hi Hs Ht.
  rewrite (store_reading_coerce _ _ _ H Hi Hs).
  unfold try_catch, bind, lift.
  destruct Ht as [-> | [[soil ->] [-> | [[temp ->] ->]]]]; reflexivity.
Qed.
End Stages.

(** ** Decoding and saving the image *)

Lemma decodeBase64Image_string s w :
  decodeBase64Image (VString s) w
  = (Normal (Some (Buffer_from_base64 (base64_part s))), w).
Proof. reflexivity. Qed.

Lemma decodeBase64Image_not_string v w :
  is_string v = false ->
  decodeBase64Image v w
  = (Normal None,
     add_log (ConsoleError "Error decoding base64 image:" (match_error v)) w).
Proof. destruct v; simpl; intros; try discriminate; reflexivity. Qed.

Section Persist.
Variable P : Process.

Lemma save_image_none coll w : save_image P coll None w = (Normal None, w).
Proof. reflexivity. Qed.

(** [save_image] never throws, touches at most the one file it names, and
    answers that name or [null]. *)
Lemma save_image_spec coll data w :
  exists saved w',
    save_image P coll (Some data) w = (Normal saved, w')
    /\ same_db_clock w w'
    /\ (saved = None \/ saved = Some (image_path P coll w))
    /\ (uploads_available P w -> saved = Some (image_path P coll w))
    /\ (forall p, p <> image_path P coll w ->
          fs_files (w_fs w') !! p = fs_files (w_fs w) !! p)
    /\ (fs_files (w_fs w') = fs_files (w_fs w)
        \/ exists left_there,
             fs_files (w_fs w')
             = <[ image_path P coll w := left_there ]> (fs_files (w_fs w))).
Proof.
  unfold save_image, try_catch, bind, existsSync, mkdirSync, writeFileSync,
    after_failed_write, Date_now, console, ret, image_path, uploads_available,
    same_db_clock.
  destruct (bool_decide (uploadsDir P ∈ fs_dirs (w_fs w))) eqn:Ed;
    destruct (bool_decide (is_Some (fs_files (w_fs w) !! uploadsDir P))) eqn:Ef;
    simpl;
    destruct (fs_mkdir_error (w_fs w)) as [em|] eqn:Em; simpl;
    destruct (fs_write_error (w_fs w)) as [ew|] eqn:Ew; simpl;
    destruct (fs_write_partial (w_fs w)) as [n|] eqn:Ep; simpl;
    rewrite ?Em, ?Ew, ?Ep; simpl;
    eexists _, _; (split; [reflexivity|]); simpl;
    repeat split; eauto;
    try (intros p Hp; by rewrite lookup_insert_ne).
  all: try (intros [H|[H|H]];
    [ apply bool_decide_eq_false in Ed; contradiction
    | apply bool_decide_eq_false in Ef; contradiction
    | discriminate ]).
Qed.

Lemma image_stage_not_string coll v w :
  is_string v = false ->
  image_stage P coll v w
  = (Normal None,
     add_log (ConsoleError "Error decoding base64 image:" (match_error v)) w).
Proof.
  intros H. unfold image_stage, bind.
  by rewrite (decodeBase64Image_not_string _ _ H).
Qed.

Lemma image_stage_spec coll v w :
  exists saved w',
    image_stage P coll v w = (Normal saved, w')
    /\ same_db_clock w w'
    /\ (saved = None \/ saved = Some (image_path P coll w))
    /\ (is_string v = true -> uploads_available P w ->
        saved = Some (image_path P coll w))
    /\ (forall p, p <> image_path P coll w ->
          fs_files (w_fs w') !! p = fs_files (w_fs w) !! p).
Proof.
  destruct (is_string v) eqn:Es.
  - destruct v; try discriminate.
    unfold image_stage, bind. rewrite decodeBase64Image_string.
    destruct (save_image_spec coll (Buffer_from_base64 (base64_part s)) w)
      as (saved & w' & -> & (? & ? & ?) & ? & ? & ? & ?).
    exists saved, w'. repeat split; auto.
  - rewrite (image_stage_not_string _ _ _ Es).
    eexists _, _. split; [reflexivity|].
    repeat split; auto; discriminate.
Qed.

(** [persist] under the handler's [catch]: the image stage, then either the
    insert and the 200 response or the driver's error and the 500 one. *)
Lemma persist_spec coll image soil temp hum w saved w1 :
  image_stage P coll image w = (Normal saved, w1) ->
  same_db_clock w w1 ->
  try_catch (persist P coll image soil temp hum) (server_error) w =
  match db_error (w_db w) with
  | Some e => server_error e w1
  | None =>
      let id := db_next_id (w_db w) in
      (Normal {| status := 200; json := SuccessJson id coll saved |},
       add_log (ConsoleLogInserted coll id soil temp hum)
         (set_db
            (inserted P coll
               (reading coll image soil temp hum saved (w_new_date w) id)
               (w_db w)) w1))
  end.
Proof.
  intros Hs (Hdb & _ & Hnd).
  unfold image_stage, bind in Hs.
  unfold try_catch, persist, bind.
  destruct (decodeBase64Image image w) as [[buffer|e] w0]; [|discriminate].
  rewrite Hs. unfold new_Date, insertOne, console, ret, inserted, reading.
  rewrite Hdb, Hnd. by destruct (db_error (w_db w)).
Qed.
End Persist.

(** ** Telling the responses apart *)

Lemma error_message_inj k k' : error_message k = error_message k' -> k = k'.
Proof. destruct k, k'; simpl; intros H; try reflexivity; discriminate H. Qed.

Lemma bad_request_inj k k' : bad_request k = bad_request k' -> k = k'.
Proof. intros [= H]. by apply error_message_inj. Qed.

Lemma existsb_false_not_true {A} (f : A -> bool) l :
  existsb f l <> true -> existsb f l = false.
Proof. by destruct (existsb f l). Qed.

(** ** Every way the handler can end *)

Section Outcomes.
Variable P : Process.

(** A request ends in one of three ways: a 400 response with the world as
    it was; a 500 response, after at most the image file was written; or
    a 200 response after the image stage and the insert. *)
Lemma store_reading_cases body w :
  (exists k, store_reading P body w = (Normal (bad_request k), w)
             /\ fails_check body k)
  \/ (exists coll e w1,
        sanitizeCollectionName (prop body "field_id") = Some coll
        /\ store_reading P body w = server_error e w1
        /\ same_db_clock w w1
        /\ forall p, p <> image_path P coll w ->
             fs_files (w_fs w1) !! p = fs_files (w_fs w) !! p)
  \/ (exists coll soil temp hum saved w1,
        sanitizeCollectionName (prop body "field_id") = Some coll
        /\ loose_eq_null (prop body "image_base64") = false
        /\ ToNumber (prop body "soil_moisture") = Normal soil
        /\ ToNumber (prop body "temperature") = Normal temp
        /\ ToNumber (prop body "humidity") = Normal hum
        /\ existsb Number_isNaN [soil; temp; hum] = false
        /\ image_stage P coll (prop body "image_base64") w = (Normal saved, w1)
        /\ db_error (w_db w) = None
        /\ store_reading P body w =
           (Normal {| status := 200;
                      json := SuccessJson (db_next_id (w_db w)) coll saved |},
            add_log
              (ConsoleLogInserted coll (db_next_id (w_db w)) soil temp hum)
              (set_db
                 (inserted P coll
                    (reading coll (prop body "image_base64") soil temp hum
                       saved (w_new_date w) (db_next_id (w_db w)))
                    (w_db w)) w1))).
Proof.
  destruct (sanitizeCollectionName (prop body "field_id")) as [coll|] eqn:Hc;
    [|left; exists InvalidFieldId; split;
      [by apply store_reading_invalid | done]].
  destruct (loose_eq_null (prop body "image_base64")) eqn:Hi;
    [left; exists MissingImage; split;
      [by eapply store_reading_missing_image | done]|].
  destruct (existsb undefined_or_null
              [prop body "soil_moisture"; prop body "temperature";
               prop body "humidity"]) eqn:Hs;
    [left; exists MissingSensorValue; split;
      [by eapply store_reading_missing_sensor | done]|].
  assert (Hsame : same_db_clock w w) by (by unfold same_db_clock).
  destruct (ToNumber (prop body "soil_moisture")) as [soil|e] eqn:H1;
    [|right; left; exists coll, e, w; split_and!; auto;
      eapply store_reading_coercion_throws; eauto].
  destruct (ToNumber (prop body "temperature")) as [temp|e] eqn:H2;
    [|right; left; exists coll, e, w; split_and!; auto;
      eapply store_reading_coercion_throws; eauto 6].
  destruct (ToNumber (prop body "humidity")) as [hum|e] eqn:H3;
    [|right; left; exists coll, e, w; split_and!; auto;
      eapply store_reading_coercion_throws; eauto 8].
  destruct (existsb Number_isNaN [soil; temp; hum]) eqn:Hn;
    [left; exists NonNumericSensorValue; split;
      [by eapply store_reading_non_numeric
      | by exists soil, temp, hum]|].
  rewrite (store_reading_valid P body w coll soil temp hum) by assumption.
  destruct (image_stage_spec P coll (prop body "image_base64") w)
    as (saved & w1 & Hst & Hsame1 & _ & _ & Hfiles).
  rewrite (persist_spec P _ _ soil temp hum _ _ _ Hst Hsame1).
  destruct (db_error (w_db w)) as [e|] eqn:He.
  - right; left. exists coll, e, w1. split_and!; auto.
  - right; right. exists coll, soil, temp, hum, saved, w1. split_and!; auto.
Qed.
End Outcomes.

(** ** The field identifier *)

(** C2: the handler passes the first check exactly when [field_id] is a
    string whose trimmed form is one to 100 ASCII letters, digits,
    underscores or hyphens; for any other value it answers 400 with the
    InvalidFieldId message and leaves the world as it was. *)
Theorem field_id_accepted_iff_well_formed
    (P : Process) (body : gmap string JsValue) (w : World) :
  (valid_field_id (prop body "field_id") <->
   (store_reading P body w).1 <> Normal (bad_request InvalidFieldId))
  /\ (~ valid_field_id (prop body "field_id") <->
      store_reading P body w = (Normal (bad_request InvalidFieldId), w)).
Proof.
  assert (Hno : ~ valid_field_id (prop body "field_id") ->
                store_reading P body w = (Normal (bad_request InvalidFieldId), w)).
  { intros H. apply store_reading_invalid. by apply sanitize_none. }
  assert (Hyes : valid_field_id (prop body "field_id") ->
                 (store_reading P body w).1 <> Normal (bad_request InvalidFieldId)).
  { intros Hv. apply sanitize_valid in Hv as [t Ht].
    destruct (store_reading_cases P body w)
      as [[k [Hk Hf]] | [(coll & e & w1 & _ & He & _)
                   | (coll & soil & temp & hum & saved & w1 & H)]].
    - rewrite Hk. simpl. intros Hb.
      assert (k = InvalidFieldId) as -> by (apply bad_request_inj; congruence).
      simpl in Hf. congruence.
    - rewrite He. discriminate.
    - destruct H as (_ & _ & _ & _ & _ & _ & _ & _ & ->). discriminate. }
  split; split; auto.
  - intros Hne. destruct (sanitizeCollectionName (prop body "field_id")) eqn:E.
    + apply sanitize_valid. eauto.
    + exfalso. apply Hne. by rewrite (store_reading_invalid P body w E).
  - intros Heq Hv. apply (Hyes Hv). by rewrite Heq.
Qed.

(** ** The validation pipeline *)

Lemma passed_field_id body :
  ~ fails_check body InvalidFieldId ->
  exists coll, sanitizeCollectionName (prop body "field_id") = Some coll.
Proof.
  simpl. destruct (sanitizeCollectionName (prop body "field_id")); [eauto|done].
Qed.

Lemma passed_image body :
  ~ fails_check body MissingImage ->
  loose_eq_null (prop body "image_base64") = false.
Proof. simpl. by destruct (loose_eq_null (prop body "image_base64")). Qed.

Lemma passed_sensors body :
  ~ fails_check body MissingSensorValue ->
  existsb undefined_or_null
    [prop body "soil_moisture"; prop body "temperature"; prop body "humidity"]
  = false.
Proof. unfold fails_check. apply existsb_false_not_true. Qed.

(** C4: a request that fails a validation check is answered 400 with one of
    the four messages, and the world (disk, database, log) after the
    handler is the world before it: nothing is inserted and nothing is
    written. *)
Theorem validation_failure_changes_nothing
    (P : Process) (body : gmap string JsValue) (w : World) (k : ValidationKind) :
  fails_check body k ->
  exists k',
    store_reading P body w = (Normal (bad_request k'), w)
    /\ status (bad_request k') = 400.
Proof.
  intros Hk.
  destruct (sanitizeCollectionName (prop body "field_id")) as [coll|] eqn:Hc;
    [|exists InvalidFieldId; split; [by apply store_reading_invalid | done]].
  destruct (loose_eq_null (prop body "image_base64")) eqn:Hi;
    [exists MissingImage; split; [by eapply store_reading_missing_image | done]|].
  destruct (existsb undefined_or_null
              [prop body "soil_moisture"; prop body "temperature";
               prop body "humidity"]) eqn:Hs;
    [exists MissingSensorValue; split;
       [by eapply store_reading_missing_sensor | done]|].
  destruct k; unfold fails_check in Hk; try congruence.
  destruct Hk as (soil & temp & hum & H1 & H2 & H3 & Hn).
  exists NonNumericSensorValue. split; [|done].
  by eapply store_reading_non_numeric.
Qed.

Lemma validation_failure_changes_nothing_witness :
  fails_check nan_body NonNumericSensorValue
  /\ exists k',
       store_reading sample_process nan_body sample_world
       = (Normal (bad_request k'), sample_world)
       /\ status (bad_request k') = 400.
Proof.
  assert (H : fails_check nan_body NonNumericSensorValue).
  { exists NaN, (of_Z 21), (of_Z 60). vm_compute. auto. }
  split; [exact H|].
  exact (validation_failure_changes_nothing sample_process nan_body
           sample_world NonNumericSensorValue H).
Defined.

(** C5: the checks run in the order field_id, image presence, sensor
    presence, numeric coercion, and the first one that fails decides the
    answer; a request with an invalid field_id is answered InvalidFieldId
    whatever else it lacks. *)
Theorem first_failing_check_wins
    (P : Process) (body : gmap string JsValue) (w : World) (k : ValidationKind) :
  fails_check body k ->
  (forall k', (check_order k' < check_order k)%nat -> ~ fails_check body k') ->
  store_reading P body w = (Normal (bad_request k), w).
Proof.
  intros Hk Hfirst. destruct k.
  - by apply store_reading_invalid.
  - destruct (passed_field_id body) as [coll Hc];
      [apply Hfirst; simpl; lia|].
    by eapply store_reading_missing_image.
  - destruct (passed_field_id body) as [coll Hc];
      [apply Hfirst; simpl; lia|].
    eapply store_reading_missing_sensor; eauto.
    apply passed_image, Hfirst. simpl; lia.
  - destruct (passed_field_id body) as [coll Hc];
      [apply Hfirst; simpl; lia|].
    destruct Hk as (soil & temp & hum & H1 & H2 & H3 & Hn).
    eapply store_reading_non_numeric; eauto.
    + apply passed_image, Hfirst. simpl; lia.
    + apply passed_sensors, Hfirst. simpl; lia.
Qed.

Lemma first_failing_check_wins_witness :
  fails_check bad_id_body InvalidFieldId
  /\ fails_check bad_id_body MissingImage
  /\ store_reading sample_process bad_id_body sample_world
     = (Normal (bad_request InvalidFieldId), sample_world).
Proof.
  assert (H : fails_check bad_id_body InvalidFieldId) by (vm_compute; reflexivity).
  split; [exact H|]. split; [vm_compute; reflexivity|].
  apply (first_failing_check_wins sample_process bad_id_body sample_world
           InvalidFieldId H).
  intros k' Hlt. destruct k'; simpl in Hlt; lia.
Defined.

(** ** Numeric coercion *)

(** C1 (as amended): past the field_id, image and presence checks, when the
    three coercions complete and one of them yields NaN, the handler answers
    400 with the NonNumericSensorValue message and leaves the world as it
    was, so nothing is inserted. *)
Theorem nan_sensor_value_rejected
    (P : Process) (body : gmap string JsValue) (w : World)
    (soil temp hum : JsNumber) :
  valid_field_id (prop body "field_id") ->
  loose_eq_null (prop body "image_base64") = false ->
  existsb undefined_or_null
    [prop body "soil_moisture"; prop body "temperature"; prop body "humidity"]
  = false ->
  ToNumber (prop body "soil_moisture") = Normal soil ->
  ToNumber (prop body "temperature") = Normal temp ->
  ToNumber (prop body "humidity") = Normal hum ->
  soil = NaN \/ temp = NaN \/ hum = NaN ->
  store_reading P body w = (Normal (bad_request NonNumericSensorValue), w).
Proof.
  intros Hv Hi Hs H1 H2 H3 Hn.
  apply sanitize_valid in Hv as [coll Hc].
  eapply store_reading_non_numeric; eauto.
  simpl. destruct Hn as [-> | [-> | ->]]; simpl;
    rewrite ?orb_true_r; reflexivity.
Qed.

Lemma sample_field_id_valid (b : gmap string JsValue) :
  prop b "field_id" = VString (js "Field_01") ->
  valid_field_id (prop b "field_id").
Proof.
  intros ->. apply sanitize_valid. eexists. vm_compute. reflexivity.
Qed.

Lemma nan_sensor_value_rejected_witness :
  store_reading sample_process nan_body sample_world
  = (Normal (bad_request NonNumericSensorValue), sample_world).
Proof.
  apply (nan_sensor_value_rejected sample_process nan_body sample_world
           NaN (of_Z 21) (of_Z 60)).
  - apply sample_field_id_valid. vm_compute. reflexivity.
  - vm_compute. reflexivity.
  - vm_compute. reflexivity.
  - vm_compute. reflexivity.
  - vm_compute. reflexivity.
  - vm_compute. reflexivity.
  - left. reflexivity.
Defined.

(** C1 (as stated) fails: the string ["Infinity"] coerces to a Number that is
    not finite, and the request is answered 200 and its document, with an
    infinite [soil_moisture], is inserted. *)
Lemma infinite_sensor_value_accepted :
  valid_field_id (prop infinite_body "field_id")
  /\ loose_eq_null (prop infinite_body "image_base64") = false
  /\ existsb undefined_or_null
       [prop infinite_body "soil_moisture"; prop infinite_body "temperature";
        prop infinite_body "humidity"] = false
  /\ ToNumber (prop infinite_body "soil_moisture") = Normal Infinity
  /\ Number_isFinite Infinity = false
  /\ (exists saved,
        (store_reading sample_process infinite_body sample_world).1
        = Normal {| status := 200;
                    json := SuccessJson 1 (js "Field_01") saved |})
  /\ (exists doc,
        db_collections
          (w_db (store_reading sample_process infinite_body sample_world).2)
          !! (js "AgriVision_IoT", js "Field_01") = Some [doc]
        /\ doc_soil_moisture doc = Infinity).
Proof.
  split; [apply sample_field_id_valid; vm_compute; reflexivity|].
  repeat (split; [vm_compute; reflexivity|]).
  split; eexists; [vm_compute; reflexivity|].
  split; vm_compute; reflexivity.
Qed.

(** ** The data-URI prefix *)

Lemma strip_prefix_app pre s : strip_prefix pre (pre ++ s) = Some s.
Proof.
  induction pre as [|a pre IH]; simpl; [by destruct s|].
  by rewrite N.eqb_refl.
Qed.

Lemma span_app_stop p s c rest :
  forallb p s = true -> p c = false -> span p (s ++ c :: rest) = (s, c :: rest).
Proof.
  intros Hs Hc. induction s as [|a s IH]; simpl in *.
  - by rewrite Hc.
  - apply andb_true_iff in Hs as [-> Hs]. by rewrite (IH Hs).
Qed.

Lemma match_data_uri_parts mime payload :
  mime <> [] -> forallb is_mime_char mime = true ->
  payload <> [] ->
  forallb (fun c => negb (is_line_terminator c)) payload = true ->
  match_data_uri (data_uri mime payload) = Some (mime, payload).
Proof.
  intros Hm Hmc Hp Hpc. unfold match_data_uri, data_uri.
  rewrite strip_prefix_app. cbn [mbind option_bind].
  change (js ";base64," ++ payload) with (59 :: (js "base64," ++ payload)).
  rewrite (span_app_stop is_mime_char mime 59 _ Hmc) by reflexivity.
  destruct mime as [|m mime]; [done|].
  change (59 :: (js "base64," ++ payload)) with (js ";base64," ++ payload).
  rewrite strip_prefix_app. cbn [mbind option_bind].
  destruct payload as [|c payload]; [done|]. by rewrite Hpc.
Qed.

(** C7 (as amended): for a data URI whose media type consists of ASCII
    letters, [-], [+] and [/] and whose payload is not empty and free of line
    terminators, the decoder strips the prefix: the buffer is the decoding of
    the payload alone. In particular ["data:image/jpeg;base64,QQ=="] decodes
    to the bytes of ["QQ=="], the single byte 65. *)
Theorem data_uri_prefix_stripped (mime payload : jsstring) (w : World) :
  mime <> [] -> forallb is_mime_char mime = true ->
  payload <> [] ->
  forallb (fun c => negb (is_line_terminator c)) payload = true ->
  decodeBase64Image (VString (data_uri mime payload)) w
  = (Normal (Some (Buffer_from_base64 payload)), w)
  /\ decodeBase64Image (VString (js "data:image/jpeg;base64,QQ==")) w
     = decodeBase64Image (VString (js "QQ==")) w
  /\ decodeBase64Image (VString (js "QQ==")) w = (Normal (Some [65]), w).
Proof.
  intros Hm Hmc Hp Hpc. split; [|split; reflexivity].
  rewrite decodeBase64Image_string. unfold base64_part.
  by rewrite (match_data_uri_parts mime payload Hm Hmc Hp Hpc).
Qed.

Lemma data_uri_prefix_stripped_witness :
  decodeBase64Image (VString (data_uri (js "image/png") (js "SGk="))) sample_world
  = (Normal (Some [72; 105]), sample_world).
Proof.
  refine (proj1 (data_uri_prefix_stripped (js "image/png") (js "SGk=")
                   sample_world _ _ _ _)).
  - discriminate.
  - vm_compute. reflexivity.
  - discriminate.
  - vm_compute. reflexivity.
Defined.

(** C7 (as stated) fails: a media type with a digit is of the form
    [data:<mime-type>;base64,<payload>], yet the pattern does not match it,
    the whole string goes to the decoder, and the buffer is not the decoding
    of the payload. *)
Lemma data_uri_with_digit_not_stripped :
  js "data:video/mp4;base64,QQ==" = data_uri (js "video/mp4") (js "QQ==")
  /\ Buffer_from_base64 (js "QQ==") = [65]
  /\ decodeBase64Image (VString (js "data:video/mp4;base64,QQ==")) sample_world
     = (Normal (Some [117; 171; 90; 190; 39; 94; 163; 249; 169; 225; 182; 172;
                      123; 174; 16]), sample_world)
  /\ (decodeBase64Image (VString (js "data:video/mp4;base64,QQ==")) sample_world).1
     <> Normal (Some (Buffer_from_base64 (js "QQ=="))).
Proof.
  split; [reflexivity|]. split; [reflexivity|]. split; [reflexivity|].
  vm_compute. discriminate.
Qed.

(** ** What a request changes *)

Section Effects.
Variable P : Process.

(** Whatever the answer, the handler changes at most one collection, the
    one named by the sanitized field_id in the configured database, and at
    most one file, the image of that field_id at the current timestamp. *)
Lemma store_reading_effects body w :
  (forall key,
     db_collections (w_db (store_reading P body w).2) !! key
       <> db_collections (w_db w) !! key ->
     exists coll,
       sanitizeCollectionName (prop body "field_id") = Some coll
       /\ key = (DATABASE_NAME P, coll))
  /\ (forall p,
        fs_files (w_fs (store_reading P body w).2) !! p
          <> fs_files (w_fs w) !! p ->
        exists coll,
          sanitizeCollectionName (prop body "field_id") = Some coll
          /\ p = image_path P coll w).
Proof.
  destruct (store_reading_cases P body w)
    as [[k [-> _]] | [(coll & e & w1 & Hc & -> & (Hdb & _) & Hfs)
                     | (coll & soil & temp & hum & saved & w1 & Hc & _ & _ & _
                        & _ & _ & Hst & _ & ->)]].
  - split; intros ? H; by destruct H.
  - simpl. split.
    + intros key H. rewrite Hdb in H. by destruct H.
    + intros p H. exists coll. split; [done|].
      destruct (decide (p = image_path P coll w)) as [|Hne]; [done|].
      destruct H. by apply Hfs.
  - destruct (image_stage_spec P coll (prop body "image_base64") w)
      as (saved' & w1' & Hst' & _ & _ & _ & Hfs).
    rewrite Hst in Hst'. injection Hst' as <- <-.
    simpl. split.
    + intros key H. exists coll. split; [done|].
      destruct (decide (key = (DATABASE_NAME P, coll))) as [|Hne]; [done|].
      destruct H. by rewrite lookup_insert_ne.
    + intros p H. exists coll. split; [done|].
      destruct (decide (p = image_path P coll w)) as [|Hne]; [done|].
      destruct H. by apply Hfs.
Qed.
End Effects.

(** ** The database name *)

Lemma prop_agree (b1 b2 : gmap string JsValue) key :
  b1 !! key = b2 !! key -> prop b1 key = prop b2 key.
Proof. unfold prop. by intros ->. Qed.

(** C9: two requests that differ at most in the presence or value of
    [database_name] get the same answer and leave the same world behind,
    and any collection a request changes is in the database named by the
    process configuration. *)
Theorem database_name_is_ignored
    (P : Process) (b1 b2 : gmap string JsValue) (w : World) :
  (forall key, key <> "database_name" -> b1 !! key = b2 !! key) ->
  store_reading P b1 w = store_reading P b2 w
  /\ forall key,
       db_collections (w_db (store_reading P b1 w).2) !! key
         <> db_collections (w_db w) !! key ->
       key.1 = DATABASE_NAME P.
Proof.
  intros Hagree. split.
  - cbv beta zeta delta [store_reading].
    rewrite (prop_agree b1 b2 "field_id"), (prop_agree b1 b2 "soil_moisture"),
      (prop_agree b1 b2 "temperature"), (prop_agree b1 b2 "humidity"),
      (prop_agree b1 b2 "image_base64") by (apply Hagree; discriminate).
    reflexivity.
  - intros key H.
    destruct (proj1 (store_reading_effects P b1 w) key H) as (coll & _ & ->).
    reflexivity.
Qed.

Lemma database_name_is_ignored_witness :
  store_reading sample_process renamed_db_body sample_world
  = store_reading sample_process sample_body sample_world.
Proof.
  refine (proj1 (database_name_is_ignored sample_process renamed_db_body
                   sample_body sample_world _)).
  intros key Hkey. unfold renamed_db_body. by rewrite lookup_insert_ne.
Defined.

(** ** The inserted document *)

Lemma server_error_status e w1 r w' :
  server_error e w1 = (Normal r, w') -> status r = 500.
Proof. unfold server_error, bind, console, ret. by intros [= <- _]. Qed.

(** C6: when a request is answered 200, its document has been appended to
    the collection named by the trimmed field_id; the document's three
    sensor fields are the coercions of the three inputs, its [field_id] is
    the trimmed input and its [image_base64] is the input value itself. *)
Theorem inserted_document_round_trip
    (P : Process) (body : gmap string JsValue) (w : World)
    (r : Response) (w' : World) :
  store_reading P body w = (Normal r, w') ->
  status r = 200 ->
  exists s soil temp hum doc,
    prop body "field_id" = VString s
    /\ ToNumber (prop body "soil_moisture") = Normal soil
    /\ ToNumber (prop body "temperature") = Normal temp
    /\ ToNumber (prop body "humidity") = Normal hum
    /\ db_collections (w_db w') !! (DATABASE_NAME P, trim s)
       = Some (default [] (db_collections (w_db w) !! (DATABASE_NAME P, trim s))
               ++ [doc])
    /\ doc_field_id doc = trim s
    /\ doc_soil_moisture doc = soil
    /\ doc_temperature doc = temp
    /\ doc_humidity doc = hum
    /\ doc_image_base64 doc = prop body "image_base64".
Proof.
  intros Hrun Hst.
  destruct (store_reading_cases P body w)
    as [[k [Hk _]] | [(coll & e & w1 & _ & He & _)
                     | (coll & soil & temp & hum & saved & w1 & Hc & _ & H1 & H2
                        & H3 & _ & _ & _ & Hok)]].
  - rewrite Hk in Hrun. injection Hrun as <- <-. discriminate Hst.
  - rewrite He in Hrun. apply server_error_status in Hrun. congruence.
  - apply sanitize_some in Hc as (s & Hs & -> & _).
    rewrite Hok in Hrun. injection Hrun as <- <-.
    exists s, soil, temp, hum.
    exists (reading (trim s) (prop body "image_base64") soil temp hum saved
              (w_new_date w) (db_next_id (w_db w))).
    split_and!; try done.
    simpl. by rewrite lookup_insert_eq.
Qed.

Lemma inserted_document_round_trip_witness :
  exists s soil temp hum doc,
    prop sample_body "field_id" = VString s
    /\ ToNumber (prop sample_body "soil_moisture") = Normal soil
    /\ ToNumber (prop sample_body "temperature") = Normal temp
    /\ ToNumber (prop sample_body "humidity") = Normal hum
    /\ db_collections
         (w_db (store_reading sample_process sample_body sample_world).2)
         !! (DATABASE_NAME sample_process, trim s)
       = Some (default []
                 (db_collections (w_db sample_world)
                    !! (DATABASE_NAME sample_process, trim s)) ++ [doc])
    /\ doc_field_id doc = trim s
    /\ doc_soil_moisture doc = soil
    /\ doc_temperature doc = temp
    /\ doc_humidity doc = hum
    /\ doc_image_base64 doc = prop sample_body "image_base64".
Proof.
  refine (inserted_document_round_trip sample_process sample_body sample_world
            (Build_Response 200
               (SuccessJson 1 (js "Field_01")
                  (Some (js "/srv/app/uploads/Field_01_1700000000000.jpg"))))
            _ _ _).
  - apply injective_projections; [vm_compute; reflexivity | reflexivity].
  - reflexivity.
Defined.

(** ** An image that cannot be decoded *)





(** ** The name of the saved file *)

Lemma Digit_NameChar c : Digit c -> NameChar c.
Proof. unfold Digit, NameChar. lia. Qed.

Lemma string_of_uint_digits d : Forall Digit (js (NilEmpty.string_of_uint d)).
Proof.
  induction d; simpl; try constructor; try exact IHd; unfold Digit; simpl; lia.
Qed.

Lemma decimal_digits n : Forall Digit (decimal n).
Proof.
  unfold decimal, NilZero.string_of_uint.
  destruct (N.to_uint n) eqn:E; try (rewrite <- E; apply string_of_uint_digits).
  repeat constructor; unfold Digit; simpl; lia.
Qed.

(** The file name is the collection name, an underscore and the timestamp,
    followed by the extension. *)
Lemma image_file_name_stem coll t :
  image_file_name coll t = (coll ++ js "_" ++ decimal t) ++ js ".jpg".
Proof. unfold image_file_name. by rewrite <- !app_assoc. Qed.

Lemma image_file_stem_chars coll t :
  Forall NameChar coll -> Forall NameChar (coll ++ js "_" ++ decimal t).
Proof.
  intros Hc. apply Forall_app. split; [done|].
  apply Forall_app. split.
  - change (js "_") with [95]. constructor; [|constructor].
    unfold NameChar. lia.
  - eapply Forall_impl; [apply decimal_digits | apply Digit_NameChar].
Qed.

(** C8 (as amended): a request for field_id ["Field_01"] with a string image
    that is answered 200, on a disk where the uploads directory exists or
    can be made, has as [saved_file] the path
    [path.join(__dirname, "uploads", "Field_01_<digits>.jpg")], the digits
    being the decimal millisecond timestamp: a path under the directory of
    [server.js], whatever the working directory is. *)
Theorem saved_file_under_module_directory
    (P : Process) (body : gmap string JsValue) (w : World)
    (image : jsstring) (r : Response) (w' : World) :
  prop body "field_id" = VString (js "Field_01") ->
  prop body "image_base64" = VString image ->
  uploads_available P w ->
  store_reading P body w = (Normal r, w') ->
  status r = 200 ->
  exists id digits,
    digits = decimal (w_date_now w)
    /\ Forall Digit digits
    /\ json r
       = SuccessJson id (js "Field_01")
           (Some (path_join (path_join (dirname P) (js "uploads"))
                    (js "Field_01_" ++ digits ++ js ".jpg"))).
Proof.
  intros Hf Him Hup Hrun Hst.
  destruct (store_reading_cases P body w)
    as [[k [Hk _]] | [(coll & e & w1 & _ & He & _)
                     | (coll & soil & temp & hum & saved & w1 & Hc & _ & _ & _
                        & _ & _ & Hstage & _ & Hok)]].
  - rewrite Hk in Hrun. injection Hrun as <- <-. discriminate Hst.
  - rewrite He in Hrun. apply server_error_status in Hrun. congruence.
  - rewrite Hf in Hc. vm_compute in Hc. injection Hc as <-.
    destruct (image_stage_spec P (js "Field_01") (prop body "image_base64") w)
      as (saved' & w1' & Hstage' & _ & _ & Hsaved & _).
    change [70; 105; 101; 108; 100; 95; 48; 49] with (js "Field_01") in *.
    rewrite Hstage in Hstage'. injection Hstage' as <- <-.
    rewrite Hsaved in Hok by (by rewrite ?Him).
    rewrite Hok in Hrun. injection Hrun as <- <-.
    exists (db_next_id (w_db w)), (decimal (w_date_now w)).
    split; [reflexivity|]. split; [apply decimal_digits|]. reflexivity.
Qed.

Lemma saved_file_under_module_directory_witness :
  exists id digits,
    digits = decimal (w_date_now sample_world)
    /\ Forall Digit digits
    /\ json (Build_Response 200
               (SuccessJson 1 (js "Field_01")
                  (Some (js "/srv/app/uploads/Field_01_1700000000000.jpg"))))
       = SuccessJson id (js "Field_01")
           (Some (path_join (path_join (dirname sample_process) (js "uploads"))
                    (js "Field_01_" ++ digits ++ js ".jpg"))).
Proof.
  refine (saved_file_under_module_directory sample_process sample_body
            sample_world (js "QQ==") _
            (store_reading sample_process sample_body sample_world).2
            _ _ _ _ _).
  - vm_compute. reflexivity.
  - vm_compute. reflexivity.
  - right. right. reflexivity.
  - apply injective_projections; [vm_compute; reflexivity | reflexivity].
  - reflexivity.
Defined.

(** C8 (as stated) fails: with [server.js] in [/srv/app] and the process
    started in [/srv], the scenario's request is answered 200 with
    [saved_file] the absolute path
    [/srv/app/uploads/Field_01_1700000000000.jpg], which is not
    [uploads/Field_01_<digits>.jpg] relative to the working directory. *)
Lemma saved_file_not_relative_to_cwd :
  (store_reading sample_process sample_body sample_world).1
  = Normal {| status := 200;
              json := SuccessJson 1 (js "Field_01")
                        (Some (js "/srv/app/uploads/Field_01_1700000000000.jpg")) |}
  /\ ~ relative_upload_path sample_process
         (js "/srv/app/uploads/Field_01_1700000000000.jpg").
Proof.
  split; [vm_compute; reflexivity|].
  intros (digits & _ & [H | H]); vm_compute in H; discriminate H.
Qed.

(** ** Names that reach the database and the disk *)

(** C10 (as amended): [sanitizeCollectionName] answers null or a string of
    one to 100 ASCII letters, digits, underscores and hyphens; so whatever a
    request changes, the collection it changes has such a name, and the file
    it writes is, in the uploads directory, such a name followed by the
    extension [.jpg]. *)
Theorem sanitized_names_are_safe
    (P : Process) (body : gmap string JsValue) (w : World) (v : JsValue) :
  (sanitizeCollectionName v = None
   \/ exists s, sanitizeCollectionName v = Some s
                /\ (1 <= length s <= 100)%nat /\ Forall NameChar s)
  /\ (forall key,
        db_collections (w_db (store_reading P body w).2) !! key
          <> db_collections (w_db w) !! key ->
        (1 <= length key.2 <= 100)%nat /\ Forall NameChar key.2)
  /\ (forall p,
        fs_files (w_fs (store_reading P body w).2) !! p
          <> fs_files (w_fs w) !! p ->
        exists stem,
          p = path_join (uploadsDir P) (stem ++ js ".jpg")
          /\ Forall NameChar stem).
Proof.
  split; [|split].
  - destruct (sanitizeCollectionName v) as [s|] eqn:E; [right|by left].
    exists s. split; [done|]. by apply sanitize_some in E as (? & _ & _ & ?).
  - intros key H.
    destruct (proj1 (store_reading_effects P body w) key H) as (coll & Hc & ->).
    by apply sanitize_some in Hc as (? & _ & _ & ?).
  - intros p H.
    destruct (proj2 (store_reading_effects P body w) p H) as (coll & Hc & ->).
    apply sanitize_some in Hc as (? & _ & _ & [_ Hchars]).
    exists (coll ++ js "_" ++ decimal (w_date_now w)). split.
    + unfold image_path. by rewrite image_file_name_stem.
    + by apply image_file_stem_chars.
Qed.

(** C10 (as stated) fails for the file name: the name generated for the
    scenario's request has a dot, which is not in the allow-list. *)
Lemma image_file_name_has_a_dot :
  (store_reading sample_process sample_body sample_world).1
  = Normal {| status := 200;
              json := SuccessJson 1 (js "Field_01")
                        (Some (path_join (uploadsDir sample_process)
                                 (image_file_name (js "Field_01")
                                    (w_date_now sample_world)))) |}
  /\ image_file_name (js "Field_01") (w_date_now sample_world)
     = js "Field_01_1700000000000.jpg"
  /\ In 46 (image_file_name (js "Field_01") (w_date_now sample_world))
  /\ ~ NameChar 46
  /\ ~ Forall NameChar (image_file_name (js "Field_01") (w_date_now sample_world)).
Proof.
  assert (Hdot : In 46 (image_file_name (js "Field_01") (w_date_now sample_world)))
    by (vm_compute; tauto).
  assert (Hno : ~ NameChar 46) by (unfold NameChar; lia).
  split; [vm_compute; reflexivity|]. split; [vm_compute; reflexivity|].
  split; [exact Hdot|]. split; [exact Hno|].
  intros Hall. apply Hno. rewrite Forall_forall in Hall. apply Hall.
  by apply list_elem_of_In.
Qed.

(** ** The scenarios of the specification *)

Example scenario_field_01 :
  (store_reading sample_process sample_body sample_world).1
  = Normal {| status := 200;
              json := SuccessJson 1 (js "Field_01")
                        (Some (js "/srv/app/uploads/Field_01_1700000000000.jpg")) |}
  /\ fs_files (w_fs (store_reading sample_process sample_body sample_world).2)
       !! js "/srv/app/uploads/Field_01_1700000000000.jpg" = Some [65].
Proof. split; vm_compute; reflexivity. Qed.

Example scenario_bad_id :
  store_reading sample_process
    (<[ "field_id" := VString (js "bad id!") ]> sample_body) sample_world
  = (Normal (bad_request InvalidFieldId), sample_world).
Proof. apply store_reading_invalid. vm_compute. reflexivity. Qed.

(** [sanitizeCollectionName] on a few values. *)
Example sanitize_examples :
  sanitizeCollectionName (VString (js "  Field_01 ")) = Some (js "Field_01")
  /\ sanitizeCollectionName (VString (js "Field_01" ++ [10])) = Some (js "Field_01")
  /\ sanitizeCollectionName (VString (js "bad id!")) = None
  /\ sanitizeCollectionName (VString (js "a.b")) = None
  /\ sanitizeCollectionName (VString (js "../etc")) = None
  /\ sanitizeCollectionName (VString (js "   ")) = None
  /\ sanitizeCollectionName (VString (repeat 65 100)) = Some (repeat 65 100)
  /\ sanitizeCollectionName (VString (repeat 65 101)) = None
  /\ sanitizeCollectionName (VNumber (of_Z 7)) = None
  /\ sanitizeCollectionName VUndefined = None.
Proof. repeat split; vm_compute; reflexivity. Qed.

(** A write that fails leaves [savedFilename] set: when the file cannot be
    opened, the response names a file that is not on the disk. *)
Example failed_write_still_names_the_file :
  let w := set_fs (failing_fs None (Some "EACCES: permission denied"%string)
                     None) sample_world in
  (store_reading sample_process sample_body w).1
  = Normal {| status := 200;
              json := SuccessJson 1 (js "Field_01")
                        (Some (js "/srv/app/uploads/Field_01_1700000000000.jpg")) |}
  /\ fs_files (w_fs (store_reading sample_process sample_body w).2)
       !! js "/srv/app/uploads/Field_01_1700000000000.jpg" = None.
Proof. split; vm_compute; reflexivity. Qed.

(** An image that is not a string is not saved: the number 7 is answered 200
    with a null [saved_file] and the disk as it was. *)
Example non_string_image_is_not_saved :
  (store_reading sample_process numeric_image_body sample_world).1
  = Normal {| status := 200; json := SuccessJson 1 (js "Field_01") None |}
  /\ w_fs (store_reading sample_process numeric_image_body sample_world).2
     = w_fs sample_world.
Proof. split; vm_compute; reflexivity. Qed.

(** A write that fails after the file was opened leaves an empty file. *)
Example failed_write_leaves_a_truncated_file :
  fs_files (w_fs (store_reading sample_process sample_body write_failing_world).2)
    !! js "/srv/app/uploads/Field_01_1700000000000.jpg" = Some [].
Proof. vm_compute. reflexivity. Qed.

(** A coercion that throws is answered 500, even after one that gave NaN. *)
Example throwing_coercion_is_a_server_error :
  let body :=
    <[ "soil_moisture" := VString (js "abc") ]>
    (<[ "temperature" := VObject [(js "toString", VNumber (of_Z 1))] ]>
       sample_body) in
  ToNumber (prop body "soil_moisture") = Normal NaN
  /\ ToNumber (prop body "temperature") = Throw cannot_convert
  /\ (store_reading sample_process body sample_world).1
     = Normal {| status := 500;
                 json := ServerErrorJson "Server error" cannot_convert |}
  /\ w_db (store_reading sample_process body sample_world).2 = w_db sample_world.
Proof. repeat split; vm_compute; reflexivity. Qed.

(** Numeric literals as [Number] reads them. *)
Example Number_of_literals :
  StringToNumber (js "42.5") = S754_finite false 5981343255101440 (-47)
  /\ StringToNumber (js " 21 ") = of_Z 21
  /\ StringToNumber (js "") = pos_zero
  /\ StringToNumber (js "0x1F") = of_Z 31
  /\ StringToNumber (js "1e999") = Infinity
  /\ StringToNumber (js "-Infinity") = NegInfinity
  /\ StringToNumber (js "12px") = NaN
  /\ ToNumber (VArray [VString (js "7")]) = Normal (of_Z 7)
  /\ ToNumber (VObject []) = Normal NaN
  /\ ToNumber (VObject [(js "toString", VNumber (of_Z 1))]) = Throw cannot_convert.
Proof. repeat split; vm_compute; reflexivity. Qed.

(** * Further properties of the handler *)

(** ** An accepted request, step by step *)

Lemma sample_body_accepted :
  accepted sample_body (js "Field_01") (StringToNumber (js "42.5"))
    (of_Z 21) (of_Z 60).
Proof. repeat split; vm_compute; reflexivity. Qed.

Section Accepted.
Variable P : Process.

Lemma image_stage_string coll img w :
  image_stage P coll (VString img) w
  = save_image P coll (Some (Buffer_from_base64 (base64_part img))) w.
Proof. reflexivity. Qed.

(** Past validation the answer is decided by the image stage and by the
    driver. *)
Lemma store_reading_accepted body w coll soil temp hum saved w1 :
  accepted body coll soil temp hum ->
  image_stage P coll (prop body "image_base64") w = (Normal saved, w1) ->
  store_reading P body w =
  match db_error (w_db w) with
  | Some e => server_error e w1
  | None =>
      let id := db_next_id (w_db w) in
      (Normal {| status := 200; json := SuccessJson id coll saved |},
       add_log (ConsoleLogInserted coll id soil temp hum)
         (set_db
            (inserted P coll
               (reading coll (prop body "image_base64") soil temp hum saved
                  (w_new_date w) id)
               (w_db w)) w1))
  end.
Proof.
  intros (Hc & Hi & Hs & H1 & H2 & H3 & Hn) Hst.
  rewrite (store_reading_valid P body w coll soil temp hum) by assumption.
  destruct (image_stage_spec P coll (prop body "image_base64") w)
    as (saved' & w1' & Hst' & Hsame & _).
  rewrite Hst in Hst'. injection Hst' as <- <-.
  by apply persist_spec.
Qed.

(** The image stage always answers. *)
Lemma image_stage_total coll v w :
  exists saved w1, image_stage P coll v w = (Normal saved, w1).
Proof.
  destruct (image_stage_spec P coll v w) as (saved & w1 & H & _). eauto.
Qed.

(** The three ways [save_image] ends when there is a buffer. *)
Lemma save_image_mkdir_fails coll data w e :
  uploads_exist P w = false ->
  fs_mkdir_error (w_fs w) = Some e ->
  save_image P coll (Some data) w
  = (Normal None, add_log (ConsoleWarn "Could not save image locally:" e) w).
Proof.
  intros Hex He. unfold uploads_exist in Hex.
  unfold save_image, try_catch, bind, existsSync, mkdirSync.
  rewrite Hex. simpl. by rewrite He.
Qed.

Lemma uploads_exist_or_made w :
  uploads_available P w <->
  uploads_exist P w = true \/ fs_mkdir_error (w_fs w) = None.
Proof.
  unfold uploads_available, uploads_exist.
  rewrite orb_true_iff, !bool_decide_eq_true. tauto.
Qed.

Lemma save_image_write_fails coll data w e :
  uploads_available P w ->
  fs_write_error (w_fs w) = Some e ->
  save_image P coll (Some data) w
  = (Normal (Some (image_path P coll w)),
     add_log (ConsoleWarn "Could not save image locally:" e)
       (after_failed_write (image_path P coll w) data (with_uploads P w))).
Proof.
  intros Hup He. apply uploads_exist_or_made in Hup.
  unfold with_uploads, uploads_exist in *.
  unfold save_image, try_catch, bind, existsSync, mkdirSync, writeFileSync,
    Date_now, console, ret, image_path.
  destruct (bool_decide (uploadsDir P ∈ fs_dirs (w_fs w))
            || bool_decide (is_Some (fs_files (w_fs w) !! uploadsDir P)))
    eqn:Hex; simpl.
  - by rewrite He.
  - destruct Hup as [|Hm]; [done|]. rewrite Hm. simpl. by rewrite He.
Qed.

(** The files a failing write leaves: those of before, or those of before
    with the bytes that went in at the path. *)
Lemma after_failed_write_files p data w :
  fs_files (w_fs (after_failed_write p data (with_uploads P w)))
  = match fs_write_partial (w_fs w) with
    | None => fs_files (w_fs w)
    | Some n => <[ p := take n data ]> (fs_files (w_fs w))
    end.
Proof.
  unfold after_failed_write, with_uploads.
  destruct (uploads_exist P w); simpl;
    by destruct (fs_write_partial (w_fs w)).
Qed.

Lemma after_failed_write_dirs p data w :
  fs_dirs (w_fs (after_failed_write p data (with_uploads P w)))
  = fs_dirs (w_fs (with_uploads P w)).
Proof.
  unfold after_failed_write, with_uploads.
  destruct (uploads_exist P w); simpl;
    by destruct (fs_write_partial (w_fs w)).
Qed.

Lemma save_image_written coll data w :
  uploads_available P w ->
  fs_write_error (w_fs w) = None ->
  save_image P coll (Some data) w
  = (Normal (Some (image_path P coll w)),
     set_fs {| fs_dirs := fs_dirs (w_fs (with_uploads P w));
               fs_files := <[ image_path P coll w := data ]> (fs_files (w_fs w));
               fs_mkdir_error := fs_mkdir_error (w_fs w);
               fs_write_error := fs_write_error (w_fs w);
     fs_write_partial := fs_write_partial (w_fs w) |} (with_uploads P w)).
Proof.
  intros Hup He. apply uploads_exist_or_made in Hup.
  unfold with_uploads, uploads_exist in *.
  unfold save_image, try_catch, bind, existsSync, mkdirSync, writeFileSync,
    Date_now, console, ret, image_path.
  destruct (bool_decide (uploadsDir P ∈ fs_dirs (w_fs w))
            || bool_decide (is_Some (fs_files (w_fs w) !! uploadsDir P)))
    eqn:Hex; simpl.
  - by rewrite He.
  - destruct Hup as [|Hm]; [done|]. rewrite Hm. simpl. by rewrite He.
Qed.
End Accepted.

(** ** The answers of the handler *)

(** X1: the handler never throws to its caller: it always answers, with 400
    and one of the four validation messages, with 500 and the generic
    "Server error" body, or with 200 and the success body. *)
Theorem store_reading_always_answers
    (P : Process) (body : gmap string JsValue) (w : World) :
  exists r w',
    store_reading P body w = (Normal r, w')
    /\ ((status r = 400 /\ exists k, json r = ErrorJson (error_message k))
        \/ (status r = 500
            /\ exists details, json r = ServerErrorJson "Server error" details)
        \/ (status r = 200
            /\ exists id coll saved, json r = SuccessJson id coll saved)).
Proof.
  destruct (store_reading_cases P body w)
    as [[k [Hk _]] | [(coll & e & w1 & _ & He & _)
                     | (coll & soil & temp & hum & saved & w1 & H)]].
  - eexists _, _. split; [exact Hk|]. left. split; [done|]. by exists k.
  - rewrite He. eexists _, _. split; [reflexivity|].
    right; left. split; [done|]. by exists e.
  - destruct H as (_ & _ & _ & _ & _ & _ & _ & _ & ->).
    eexists _, _. split; [reflexivity|].
    right; right. split; [done|]. by eexists _, _, _.
Qed.

(** X2: a request inserts a document only when it is answered 200, and then
    exactly one: the database is untouched by any other answer, and a 200
    answer appends one document to one collection, takes the next
    identifier, and reports that document's identifier and [saved_file]. *)
Theorem one_document_per_success
    (P : Process) (body : gmap string JsValue) (w : World)
    (r : Response) (w' : World) :
  store_reading P body w = (Normal r, w') ->
  (status r <> 200 -> w_db w' = w_db w)
  /\ (status r = 200 ->
      exists coll doc,
        json r = SuccessJson (doc_id doc) coll (doc_saved_file doc)
        /\ doc_id doc = db_next_id (w_db w)
        /\ db_next_id (w_db w') = db_next_id (w_db w) + 1
        /\ db_collections (w_db w')
           = <[ (DATABASE_NAME P, coll) :=
                  default [] (db_collections (w_db w) !! (DATABASE_NAME P, coll))
                  ++ [doc] ]> (db_collections (w_db w))).
Proof.
  intros Hrun.
  destruct (store_reading_cases P body w)
    as [[k [Hk _]] | [(coll & e & w1 & _ & He & (Hdb & _) & _)
                     | (coll & soil & temp & hum & saved & w1 & H)]].
  - rewrite Hk in Hrun. injection Hrun as <- <-. split; [done|discriminate].
  - rewrite He in Hrun. pose proof (server_error_status _ _ _ _ Hrun) as Hs.
    unfold server_error, bind, console, ret in Hrun. injection Hrun as <- <-.
    split; [done|]. simpl. discriminate.
  - destruct H as (_ & _ & _ & _ & _ & _ & _ & _ & Hok).
    rewrite Hok in Hrun. injection Hrun as <- <-.
    split; [simpl; done|]. intros _.
    exists coll.
    exists (reading coll (prop body "image_base64") soil temp hum saved
              (w_new_date w) (db_next_id (w_db w))).
    done.
Qed.

Lemma one_document_per_success_witness :
  (status (Build_Response 200
             (SuccessJson 1 (js "Field_01")
                (Some (js "/srv/app/uploads/Field_01_1700000000000.jpg"))))
   <> 200 ->
   w_db (store_reading sample_process sample_body sample_world).2
   = w_db sample_world)
  /\ (status (Build_Response 200
                (SuccessJson 1 (js "Field_01")
                   (Some (js "/srv/app/uploads/Field_01_1700000000000.jpg"))))
      = 200 ->
      exists coll doc,
        json (Build_Response 200
                (SuccessJson 1 (js "Field_01")
                   (Some (js "/srv/app/uploads/Field_01_1700000000000.jpg"))))
        = SuccessJson (doc_id doc) coll (doc_saved_file doc)
        /\ doc_id doc = db_next_id (w_db sample_world)
        /\ db_next_id
             (w_db (store_reading sample_process sample_body sample_world).2)
           = db_next_id (w_db sample_world) + 1
        /\ db_collections
             (w_db (store_reading sample_process sample_body sample_world).2)
           = <[ (DATABASE_NAME sample_process, coll) :=
                  default []
                    (db_collections (w_db sample_world)
                       !! (DATABASE_NAME sample_process, coll)) ++ [doc] ]>
               (db_collections (w_db sample_world))).
Proof.
  apply (one_document_per_success sample_process sample_body sample_world).
  apply injective_projections; [vm_compute; reflexivity | reflexivity].
Defined.

(** X3: the handler does not deduplicate. When a request is answered 200,
    the same request sent again to the database it left behind (whatever the
    disk and the clock are by then) is answered 200 again, with the next
    identifier, and the collection ends with the two documents. *)
Theorem repeated_request_inserts_again
    (P : Process) (body : gmap string JsValue) (w w1 w2 : World)
    (r1 : Response) :
  store_reading P body w = (Normal r1, w1) ->
  status r1 = 200 ->
  w_db w2 = w_db w1 ->
  exists id coll saved1 saved2 d1 d2 w3,
    json r1 = SuccessJson id coll saved1
    /\ store_reading P body w2
       = (Normal {| status := 200; json := SuccessJson (id + 1) coll saved2 |},
          w3)
    /\ db_collections (w_db w3) !! (DATABASE_NAME P, coll)
       = Some (default [] (db_collections (w_db w) !! (DATABASE_NAME P, coll))
               ++ [d1; d2])
    /\ doc_id d1 = id /\ doc_id d2 = id + 1
    /\ doc_field_id d1 = doc_field_id d2
    /\ doc_image_base64 d1 = doc_image_base64 d2.
Proof.
  intros Hrun Hst Hdb.
  destruct (store_reading_cases P body w)
    as [[k [Hk _]] | [(coll & e & w0 & _ & He & _)
                     | (coll & soil & temp & hum & saved & w0 & Hc & Hi & H1
                        & H2 & H3 & Hn & _ & Herr & Hok)]].
  - rewrite Hk in Hrun. injection Hrun as <- <-. discriminate Hst.
  - rewrite He in Hrun. apply server_error_status in Hrun. congruence.
  - rewrite Hok in Hrun. injection Hrun as <- <-.
    assert (Hacc : accepted body coll soil temp hum).
    { repeat split; try assumption.
      destruct (existsb undefined_or_null _) eqn:Hs; [|done].
      rewrite (store_reading_missing_sensor P body w coll Hc Hi Hs) in Hok.
      discriminate Hok. }
    destruct (image_stage_total P coll (prop body "image_base64") w2)
      as (saved2 & w2' & Hst2).
    pose proof (store_reading_accepted P body w2 coll soil temp hum
                  saved2 w2' Hacc Hst2) as Hsecond.
    rewrite Hdb in Hsecond. simpl in Hsecond. rewrite Herr in Hsecond.
    eexists _, coll, saved, saved2, _, _, _.
    split; [reflexivity|]. split; [exact Hsecond|].
    simpl. rewrite !lookup_insert_eq. simpl. rewrite <- app_assoc. simpl.
    split; [reflexivity|]. done.
Qed.

Lemma repeated_request_inserts_again_witness :
  exists id coll saved1 saved2 d1 d2 w3,
    json (Build_Response 200
            (SuccessJson 1 (js "Field_01")
               (Some (js "/srv/app/uploads/Field_01_1700000000000.jpg"))))
    = SuccessJson id coll saved1
    /\ store_reading sample_process sample_body
         (store_reading sample_process sample_body sample_world).2
       = (Normal {| status := 200; json := SuccessJson (id + 1) coll saved2 |},
          w3)
    /\ db_collections (w_db w3) !! (DATABASE_NAME sample_process, coll)
       = Some (default []
                 (db_collections (w_db sample_world)
                    !! (DATABASE_NAME sample_process, coll)) ++ [d1; d2])
    /\ doc_id d1 = id /\ doc_id d2 = id + 1
    /\ doc_field_id d1 = doc_field_id d2
    /\ doc_image_base64 d1 = doc_image_base64 d2.
Proof.
  apply (repeated_request_inserts_again sample_process sample_body sample_world
           (store_reading sample_process sample_body sample_world).2).
  - apply injective_projections; [vm_compute; reflexivity | reflexivity].
  - reflexivity.
  - reflexivity.
Defined.

(** ** The disk and the driver failing *)

(** Past validation, the disk after the request is the disk after the image
    stage, whatever the driver answers. *)
Lemma accepted_disk P body w coll soil temp hum saved w1 :
  accepted body coll soil temp hum ->
  image_stage P coll (prop body "image_base64") w = (Normal saved, w1) ->
  w_fs (store_reading P body w).2 = w_fs w1.
Proof.
  intros Hacc Hst.
  rewrite (store_reading_accepted P body w coll soil temp hum saved w1 Hacc Hst).
  by destruct (db_error (w_db w)).
Qed.

Lemma with_uploads_files P w :
  fs_files (w_fs (with_uploads P w)) = fs_files (w_fs w).
Proof. unfold with_uploads. by destruct (uploads_exist P w). Qed.



(** X5: when the uploads directory is missing and [mkdirSync] throws, the
    request is still answered 200 and its document inserted, [saved_file] is
    null in both, and the disk is as it was. *)
Theorem failed_mkdir_gives_null_saved_file
    (P : Process) (body : gmap string JsValue) (w : World)
    (coll img : jsstring) (soil temp hum : JsNumber) (e : string) :
  accepted body coll soil temp hum ->
  prop body "image_base64" = VString img ->
  uploads_exist P w = false ->
  fs_mkdir_error (w_fs w) = Some e ->
  db_error (w_db w) = None ->
  exists doc,
    (store_reading P body w).1
    = Normal {| status := 200;
                json := SuccessJson (db_next_id (w_db w)) coll None |}
    /\ w_fs (store_reading P body w).2 = w_fs w
    /\ db_collections (w_db (store_reading P body w).2) !! (DATABASE_NAME P, coll)
       = Some (default [] (db_collections (w_db w) !! (DATABASE_NAME P, coll))
               ++ [doc])
    /\ doc_saved_file doc = None.
Proof.
  intros Hacc Him Hex Hmk Hdb.
  pose proof (save_image_mkdir_fails P coll
                (Buffer_from_base64 (base64_part img)) w e Hex Hmk) as Hsave.
  rewrite <- image_stage_string, <- Him in Hsave.
  rewrite (store_reading_accepted P body w coll soil temp hum _ _ Hacc Hsave).
  rewrite Hdb. eexists. simpl. rewrite lookup_insert_eq.
  split_and!; reflexivity.
Qed.

Lemma failed_mkdir_gives_null_saved_file_witness :
  exists doc,
    (store_reading sample_process sample_body mkdir_failing_world).1
    = Normal {| status := 200;
                json := SuccessJson (db_next_id (w_db mkdir_failing_world))
                          (js "Field_01") None |}
    /\ w_fs (store_reading sample_process sample_body mkdir_failing_world).2
       = w_fs mkdir_failing_world
    /\ db_collections
         (w_db (store_reading sample_process sample_body mkdir_failing_world).2)
         !! (DATABASE_NAME sample_process, js "Field_01")
       = Some (default []
                 (db_collections (w_db mkdir_failing_world)
                    !! (DATABASE_NAME sample_process, js "Field_01")) ++ [doc])
    /\ doc_saved_file doc = None.
Proof.
  apply (failed_mkdir_gives_null_saved_file sample_process sample_body
           mkdir_failing_world (js "Field_01") (js "QQ==")
           (StringToNumber (js "42.5")) (of_Z 21) (of_Z 60)
           "EACCES: permission denied").
  - exact sample_body_accepted.
  - vm_compute. reflexivity.
  - vm_compute. reflexivity.
  - reflexivity.
  - reflexivity.
Defined.

(** X6: when the driver rejects the insert, the request is answered 500 with
    the body [{ error: "Server error", details }] carrying the driver's
    message, the database is as it was, and nothing is rolled back: the image
    written before the insert stays on the disk. *)
Theorem failed_insert_is_a_server_error
    (P : Process) (body : gmap string JsValue) (w : World)
    (coll img : jsstring) (soil temp hum : JsNumber) (e : string) :
  accepted body coll soil temp hum ->
  prop body "image_base64" = VString img ->
  uploads_available P w ->
  fs_write_error (w_fs w) = None ->
  db_error (w_db w) = Some e ->
  (store_reading P body w).1
  = Normal {| status := 500; json := ServerErrorJson "Server error" e |}
  /\ w_db (store_reading P body w).2 = w_db w
  /\ fs_files (w_fs (store_reading P body w).2) !! image_path P coll w
     = Some (Buffer_from_base64 (base64_part img))
  /\ In (ConsoleError "ERROR /api/store-reading:" e)
       (w_log (store_reading P body w).2).
Proof.
  intros Hacc Him Hup Hwr Hdb.
  pose proof (save_image_written P coll
                (Buffer_from_base64 (base64_part img)) w Hup Hwr) as Hsave.
  rewrite <- image_stage_string, <- Him in Hsave.
  rewrite (store_reading_accepted P body w coll soil temp hum _ _ Hacc Hsave).
  rewrite Hdb. simpl. rewrite lookup_insert_eq.
  split_and!; try reflexivity.
  - unfold with_uploads. by destruct (uploads_exist P w).
  - apply in_or_app. right. by left.
Qed.

Lemma failed_insert_is_a_server_error_witness :
  (store_reading sample_process sample_body db_failing_world).1
  = Normal {| status := 500;
              json := ServerErrorJson "Server error" "connection refused" |}
  /\ w_db (store_reading sample_process sample_body db_failing_world).2
     = w_db db_failing_world
  /\ fs_files (w_fs (store_reading sample_process sample_body db_failing_world).2)
       !! image_path sample_process (js "Field_01") db_failing_world
     = Some (Buffer_from_base64 (base64_part (js "QQ==")))
  /\ In (ConsoleError "ERROR /api/store-reading:" "connection refused")
       (w_log (store_reading sample_process sample_body db_failing_world).2).
Proof.
  apply (failed_insert_is_a_server_error sample_process sample_body
           db_failing_world (js "Field_01") (js "QQ==")
           (StringToNumber (js "42.5")) (of_Z 21) (of_Z 60)).
  - exact sample_body_accepted.
  - vm_compute. reflexivity.
  - right. right. reflexivity.
  - reflexivity.
  - reflexivity.
Defined.

(** X7: for an accepted request whose image is a string, on a disk where the
    uploads directory is there or can be made and the write succeeds, the
    handler writes exactly one file: the files after the request are those
    before plus the decoded image at [image_path] (the payload alone when the
    data-URI pattern matched), whether or not the insert then succeeds. *)
Theorem image_file_holds_the_decoded_bytes
    (P : Process) (body : gmap string JsValue) (w : World)
    (coll img : jsstring) (soil temp hum : JsNumber) :
  accepted body coll soil temp hum ->
  prop body "image_base64" = VString img ->
  uploads_available P w ->
  fs_write_error (w_fs w) = None ->
  fs_files (w_fs (store_reading P body w).2)
  = <[ image_path P coll w := Buffer_from_base64 (base64_part img) ]>
      (fs_files (w_fs w)).
Proof.
  intros Hacc Him Hup Hwr.
  pose proof (save_image_written P coll
                (Buffer_from_base64 (base64_part img)) w Hup Hwr) as Hsave.
  rewrite <- image_stage_string, <- Him in Hsave.
  by rewrite (accepted_disk P body w coll soil temp hum _ _ Hacc Hsave).
Qed.

Lemma image_file_holds_the_decoded_bytes_witness :
  fs_files (w_fs (store_reading sample_process sample_body sample_world).2)
  = <[ image_path sample_process (js "Field_01") sample_world
       := Buffer_from_base64 (base64_part (js "QQ==")) ]>
      (fs_files (w_fs sample_world)).
Proof.
  apply (image_file_holds_the_decoded_bytes sample_process sample_body
           sample_world (js "Field_01") (js "QQ==")
           (StringToNumber (js "42.5")) (of_Z 21) (of_Z 60)).
  - exact sample_body_accepted.
  - vm_compute. reflexivity.
  - right. right. reflexivity.
  - reflexivity.
Defined.

(** X8: the uploads directory is made on demand. For an accepted request
    whose image is a string, when [mkdirSync] does not fail, the directory is
    added exactly when [existsSync] did not find it, no other directory
    changes, and it is found afterwards. *)
Theorem uploads_directory_made_on_demand
    (P : Process) (body : gmap string JsValue) (w : World)
    (coll img : jsstring) (soil temp hum : JsNumber) :
  accepted body coll soil temp hum ->
  prop body "image_base64" = VString img ->
  fs_mkdir_error (w_fs w) = None ->
  fs_dirs (w_fs (store_reading P body w).2)
  = (if uploads_exist P w then fs_dirs (w_fs w)
     else {[ uploadsDir P ]} ∪ fs_dirs (w_fs w))
  /\ uploads_exist P (store_reading P body w).2 = true.
Proof.
  intros Hacc Him Hmk.
  assert (Hup : uploads_available P w) by (right; by right).
  assert (Hdirs : fs_dirs (w_fs (with_uploads P w))
                  = if uploads_exist P w then fs_dirs (w_fs w)
                    else {[ uploadsDir P ]} ∪ fs_dirs (w_fs w)).
  { unfold with_uploads. by destruct (uploads_exist P w). }
  assert (Hstage : exists w1,
             w_fs (store_reading P body w).2 = w_fs w1
             /\ fs_dirs (w_fs w1) = fs_dirs (w_fs (with_uploads P w))
             /\ (fs_files (w_fs w1) = fs_files (w_fs w)
                 \/ exists p data,
                      fs_files (w_fs w1) = <[ p := data ]> (fs_files (w_fs w)))).
  { destruct (fs_write_error (w_fs w)) as [e|] eqn:Hwr.
    - pose proof (save_image_write_fails P coll
                    (Buffer_from_base64 (base64_part img)) w e Hup Hwr) as Hsave.
      rewrite <- image_stage_string, <- Him in Hsave.
      eexists. split; [exact (accepted_disk P body w coll soil temp hum _ _
                                Hacc Hsave)|].
      simpl. split; [apply after_failed_write_dirs|].
      rewrite after_failed_write_files.
      destruct (fs_write_partial (w_fs w)); [right; by eexists _, _ | by left].
    - pose proof (save_image_written P coll
                    (Buffer_from_base64 (base64_part img)) w Hup Hwr) as Hsave.
      rewrite <- image_stage_string, <- Him in Hsave.
      eexists. split; [exact (accepted_disk P body w coll soil temp hum _ _
                                Hacc Hsave)|].
      simpl. split; [reflexivity|]. right. by eexists _, _. }
  destruct Hstage as (w1 & Hfs & Hd & Hf).
  split; [by rewrite Hfs, Hd|].
  unfold uploads_exist at 1. rewrite Hfs, Hd, Hdirs.
  unfold uploads_exist. apply orb_true_iff.
  destruct (bool_decide (uploadsDir P ∈ fs_dirs (w_fs w))) eqn:Ed; simpl.
  - left. by rewrite Ed.
  - destruct (bool_decide (is_Some (fs_files (w_fs w) !! uploadsDir P))) eqn:Ef.
    + right. apply bool_decide_eq_true. apply bool_decide_eq_true in Ef.
      destruct Hf as [-> | (p & data & ->)]; [done|].
      rewrite lookup_insert.
      destruct (decide (p = uploadsDir P)); [by eexists | done].
    + left. apply bool_decide_eq_true. simpl.
      apply elem_of_union. left. by apply elem_of_singleton.
Qed.

Lemma uploads_directory_made_on_demand_witness :
  fs_dirs (w_fs (store_reading sample_process sample_body sample_world).2)
  = (if uploads_exist sample_process sample_world
     then fs_dirs (w_fs sample_world)
     else {[ uploadsDir sample_process ]} ∪ fs_dirs (w_fs sample_world))
  /\ uploads_exist sample_process
       (store_reading sample_process sample_body sample_world).2 = true.
Proof.
  apply (uploads_directory_made_on_demand sample_process sample_body
           sample_world (js "Field_01") (js "QQ==")
           (StringToNumber (js "42.5")) (of_Z 21) (of_Z 60)).
  - exact sample_body_accepted.
  - vm_compute. reflexivity.
  - reflexivity.
Defined.

(** ** Trimming and the collection name *)

Lemma name_char_not_whitespace c : NameChar c -> is_js_whitespace c = false.
Proof.
  unfold NameChar, is_js_whitespace, in_range. intros H.
  rewrite !orb_false_iff, !andb_false_iff, !N.leb_gt, !N.eqb_neq. lia.
Qed.

Lemma trimStart_no_whitespace s :
  Forall (fun c => is_js_whitespace c = false) s -> trimStart s = s.
Proof. destruct 1 as [|c s Hc _]; simpl; [done|]. by rewrite Hc. Qed.

Lemma trim_no_whitespace s :
  Forall (fun c => is_js_whitespace c = false) s -> trim s = s.
Proof.
  intros H. unfold trim, trimEnd. rewrite (trimStart_no_whitespace s H).
  rewrite trimStart_no_whitespace; [apply rev_involutive|].
  by apply Forall_rev.
Qed.

Lemma trimStart_app_whitespace a s :
  AllWhitespace a -> trimStart (a ++ s) = trimStart s.
Proof. induction 1 as [|c a Hc _ IH]; simpl; [done|]. by rewrite Hc. Qed.

Lemma trimStart_all_whitespace s : AllWhitespace s -> trimStart s = [].
Proof.
  intros H. rewrite <- (app_nil_r s). by rewrite trimStart_app_whitespace.
Qed.

Lemma trimStart_nil_whitespace s : trimStart s = [] -> AllWhitespace s.
Proof.
  unfold AllWhitespace.
  induction s as [|c s IH]; simpl; [constructor|].
  destruct (is_js_whitespace c) eqn:Hc; [|discriminate].
  intros H. constructor; [exact Hc | exact (IH H)].
Qed.

Lemma trimStart_app_keeps s b :
  trimStart s <> [] -> trimStart (s ++ b) = trimStart s ++ b.
Proof.
  induction s as [|c s IH]; simpl; [done|].
  destruct (is_js_whitespace c); auto.
Qed.

Lemma trimEnd_app_whitespace s b :
  AllWhitespace b -> trimEnd (s ++ b) = trimEnd s.
Proof.
  intros H. unfold trimEnd. rewrite rev_app_distr.
  rewrite trimStart_app_whitespace; [done|]. by apply Forall_rev.
Qed.

(** White space around a string does not change its trimmed form. *)
Lemma trim_surrounded a s b :
  AllWhitespace a -> AllWhitespace b -> trim (a ++ s ++ b) = trim s.
Proof.
  intros Ha Hb. unfold trim. rewrite (trimStart_app_whitespace a _ Ha).
  destruct (trimStart s) as [|c r] eqn:Hs.
  - apply trimStart_nil_whitespace in Hs.
    rewrite trimStart_all_whitespace; [done|]. by apply Forall_app.
  - rewrite trimStart_app_keeps by (rewrite Hs; discriminate).
    rewrite Hs. by apply trimEnd_app_whitespace.
Qed.

Lemma prop_insert_eq (body : gmap string JsValue) key v :
  prop (<[ key := v ]> body) key = v.
Proof. unfold prop. by rewrite lookup_insert_eq. Qed.

Lemma prop_insert_ne (body : gmap string JsValue) key key' v :
  key <> key' -> prop (<[ key := v ]> body) key' = prop body key'.
Proof. intros H. unfold prop. by rewrite lookup_insert_ne. Qed.

(** X9: a sanitized name is a fixed point of [sanitizeCollectionName]: the
    [field_id] stored in a document, sent back as a request's [field_id],
    names the same collection. *)
Theorem sanitized_name_is_fixed (v : JsValue) (t : jsstring) :
  sanitizeCollectionName v = Some t ->
  sanitizeCollectionName (VString t) = Some t.
Proof.
  intros H. apply sanitize_some in H as (s & _ & _ & Hwf).
  apply sanitize_some. exists t. split; [done|].
  assert (Ht : trim t = t).
  { apply trim_no_whitespace. destruct Hwf as [_ Hc].
    eapply Forall_impl; [exact Hc | apply name_char_not_whitespace]. }
  by rewrite Ht.
Qed.

Lemma sanitized_name_is_fixed_witness :
  sanitizeCollectionName (VString (js "Field_01")) = Some (js "Field_01").
Proof.
  apply (sanitized_name_is_fixed (VString (js "  Field_01 ")) (js "Field_01")).
  vm_compute. reflexivity.
Defined.

(** X10: white space around the [field_id] is not significant: two requests
    that differ only in white space before and after the [field_id] string
    are treated alike (same collection, same answer, same effects). *)
Theorem field_id_whitespace_is_ignored
    (P : Process) (body : gmap string JsValue) (w : World)
    (a s b : jsstring) :
  AllWhitespace a -> AllWhitespace b ->
  sanitizeCollectionName (VString (a ++ s ++ b))
  = sanitizeCollectionName (VString s)
  /\ store_reading P (<[ "field_id" := VString (a ++ s ++ b) ]> body) w
     = store_reading P (<[ "field_id" := VString s ]> body) w.
Proof.
  intros Ha Hb.
  assert (Hs : sanitizeCollectionName (VString (a ++ s ++ b))
               = sanitizeCollectionName (VString s)).
  { simpl. by rewrite (trim_surrounded a s b Ha Hb). }
  split; [exact Hs|].
  cbv beta zeta delta [store_reading].
  rewrite !prop_insert_eq, !prop_insert_ne by discriminate.
  by rewrite Hs.
Qed.

Lemma field_id_whitespace_is_ignored_witness :
  sanitizeCollectionName (VString (js "  " ++ js "Field_01" ++ js " "))
  = sanitizeCollectionName (VString (js "Field_01"))
  /\ store_reading sample_process
       (<[ "field_id" := VString (js "  " ++ js "Field_01" ++ js " ") ]>
          sample_body) sample_world
     = store_reading sample_process
         (<[ "field_id" := VString (js "Field_01") ]> sample_body) sample_world.
Proof.
  apply (field_id_whitespace_is_ignored sample_process sample_body sample_world
           (js "  ") (js "Field_01") (js " ")).
  - repeat constructor.
  - repeat constructor.
Defined.

(** ** Sensor values that are present but blank *)

Lemma trim_all_whitespace s : AllWhitespace s -> trim s = [].
Proof. intros H. unfold trim. by rewrite (trimStart_all_whitespace s H). Qed.

Lemma blank_value_is_zero v :
  blank_value v -> ToNumber v = Normal pos_zero /\ undefined_or_null v = false.
Proof.
  intros [(ws & -> & Hws) | [-> | ->]]; split; try reflexivity.
  simpl. unfold StringToNumber. by rewrite (trim_all_whitespace ws Hws).
Qed.

(** X11: presence is tested against [undefined] and [null] only, so a
    [soil_moisture] that is an empty or all-whitespace string, [false] or an
    empty array passes the presence check, coerces to [+0], passes the NaN
    check, and is stored as 0 by a request answered 200. *)
Theorem blank_sensor_value_is_stored_as_zero
    (P : Process) (body : gmap string JsValue) (w : World)
    (coll : jsstring) (temp hum : JsNumber) :
  sanitizeCollectionName (prop body "field_id") = Some coll ->
  loose_eq_null (prop body "image_base64") = false ->
  blank_value (prop body "soil_moisture") ->
  undefined_or_null (prop body "temperature") = false ->
  undefined_or_null (prop body "humidity") = false ->
  ToNumber (prop body "temperature") = Normal temp ->
  ToNumber (prop body "humidity") = Normal hum ->
  Number_isNaN temp = false ->
  Number_isNaN hum = false ->
  db_error (w_db w) = None ->
  exists saved doc,
    (store_reading P body w).1
    = Normal {| status := 200;
                json := SuccessJson (db_next_id (w_db w)) coll saved |}
    /\ db_collections (w_db (store_reading P body w).2) !! (DATABASE_NAME P, coll)
       = Some (default [] (db_collections (w_db w) !! (DATABASE_NAME P, coll))
               ++ [doc])
    /\ doc_soil_moisture doc = pos_zero.
Proof.
  intros Hc Hi Hblank Ht Hh H2 H3 Hnt Hnh Hdb.
  destruct (blank_value_is_zero _ Hblank) as [H1 Hs].
  assert (Hacc : accepted body coll pos_zero temp hum).
  { repeat split; try assumption.
    - simpl. by rewrite Hs, Ht, Hh.
    - simpl. by rewrite Hnt, Hnh. }
  destruct (image_stage_total P coll (prop body "image_base64") w)
    as (saved & w1 & Hst).
  rewrite (store_reading_accepted P body w coll pos_zero temp hum saved w1
             Hacc Hst).
  rewrite Hdb. exists saved. eexists. simpl. rewrite lookup_insert_eq.
  split_and!; reflexivity.
Qed.

Lemma blank_sensor_value_is_stored_as_zero_witness :
  exists saved doc,
    (store_reading sample_process blank_body sample_world).1
    = Normal {| status := 200;
                json := SuccessJson (db_next_id (w_db sample_world))
                          (js "Field_01") saved |}
    /\ db_collections (w_db (store_reading sample_process blank_body sample_world).2)
         !! (DATABASE_NAME sample_process, js "Field_01")
       = Some (default []
                 (db_collections (w_db sample_world)
                    !! (DATABASE_NAME sample_process, js "Field_01")) ++ [doc])
    /\ doc_soil_moisture doc = pos_zero.
Proof.
  apply (blank_sensor_value_is_stored_as_zero sample_process blank_body
           sample_world (js "Field_01") (of_Z 21) (of_Z 60)).
  - vm_compute. reflexivity.
  - vm_compute. reflexivity.
  - left. exists (js "  "). split; [vm_compute; reflexivity | repeat constructor].
  - vm_compute. reflexivity.
  - vm_compute. reflexivity.
  - vm_compute. reflexivity.
  - vm_compute. reflexivity.
  - reflexivity.
  - reflexivity.
  - reflexivity.
Defined.

(** ** What the handler reads *)

(** X12: the handler reads five properties of the body and nothing else: two
    bodies that agree on [field_id], [soil_moisture], [temperature],
    [humidity] and [image_base64] get the same answer and have the same
    effects, whatever other properties they carry. *)
Theorem only_five_properties_are_read
    (P : Process) (b1 b2 : gmap string JsValue) (w : World) :
  (forall key, In key read_keys -> b1 !! key = b2 !! key) ->
  store_reading P b1 w = store_reading P b2 w.
Proof.
  intros Hagree. cbv beta zeta delta [store_reading].
  rewrite (prop_agree b1 b2 "field_id"), (prop_agree b1 b2 "soil_moisture"),
    (prop_agree b1 b2 "temperature"), (prop_agree b1 b2 "humidity"),
    (prop_agree b1 b2 "image_base64") by (apply Hagree; simpl; tauto).
  reflexivity.
Qed.

Lemma only_five_properties_are_read_witness :
  store_reading sample_process
    (<[ "battery" := VNumber (of_Z 87) ]>
       (<[ "device" := VString (js "esp32") ]> sample_body)) sample_world
  = store_reading sample_process sample_body sample_world.
Proof.
  apply (only_five_properties_are_read sample_process).
  intros key Hkey.
  rewrite !lookup_insert_ne; [reflexivity | |];
    intros <-; simpl in Hkey; intuition discriminate.
Defined.

(** ** File names *)

Lemma js_inj s t : js s = js t -> s = t.
Proof.
  unfold js. intros H.
  rewrite <- (string_of_list_ascii_of_string s),
          <- (string_of_list_ascii_of_string t).
  f_equal. revert H.
  generalize (list_ascii_of_string s) (list_ascii_of_string t).
  induction l as [|a l IH]; intros [|b l']; simpl; try discriminate; [done|].
  intros [= Hab Hl]. f_equal; [|by apply IH].
  by rewrite <- (ascii_N_embedding a), <- (ascii_N_embedding b), Hab.
Qed.

Lemma to_uint_not_Nil n : N.to_uint n <> Decimal.Nil.
Proof.
  destruct n; simpl; [discriminate|]. apply DecimalPos.Unsigned.to_uint_nonnil.
Qed.

(** The timestamp can be read back from its digits. *)
Lemma decimal_inj n m : decimal n = decimal m -> n = m.
Proof.
  unfold decimal. intros H%js_inj.
  apply (f_equal NilZero.uint_of_string) in H.
  rewrite !NilZero.usu in H by apply to_uint_not_Nil.
  injection H as H. by apply DecimalN.Unsigned.to_uint_inj.
Qed.

Lemma decimal_no_underscore n : ~ In 95 (decimal n).
Proof.
  intros H. pose proof (decimal_digits n) as Hd.
  rewrite Forall_forall in Hd.
  apply list_elem_of_In, Hd in H. unfold Digit in H. lia.
Qed.

(** The last underscore splits a file stem into its two parts. *)
Lemma split_at_last_underscore (c1 c2 d1 d2 : jsstring) :
  ~ In 95 d1 -> ~ In 95 d2 ->
  c1 ++ 95 :: d1 = c2 ++ 95 :: d2 -> c1 = c2 /\ d1 = d2.
Proof.
  intros H1 H2. revert c2.
  induction c1 as [|x c1 IH]; intros [|y c2]; simpl; intros H.
  - by injection H.
  - injection H as _ ->. destruct H1. apply in_or_app. right. by left.
  - injection H as _ <-. destruct H2. apply in_or_app. right. by left.
  - injection H as -> H. destruct (IH _ H) as [-> ->]. done.
Qed.

Lemma path_join_inj dir a b : path_join dir a = path_join dir b -> a = b.
Proof.
  unfold path_join. destruct (ends_with_slash dir); intros H.
  - by apply app_inv_head in H.
  - apply app_inv_head in H. by injection H.
Qed.

(** X13: image files do not collide across collections or timestamps: two
    requests are given the same file path exactly when they have the same
    collection name and the same [Date.now()] reading. (Two requests for one
    field in the same millisecond do share a path.) *)
Theorem image_paths_collide_only_on_same_name_and_time
    (P : Process) (c1 c2 : jsstring) (w1 w2 : World) :
  image_path P c1 w1 = image_path P c2 w2
  <-> c1 = c2 /\ w_date_now w1 = w_date_now w2.
Proof.
  split.
  - unfold image_path, image_file_name. intros H%path_join_inj.
    rewrite !app_assoc in H. apply app_inv_tail in H.
    rewrite <- !app_assoc in H.
    change (js "_") with [95] in H. simpl in H.
    apply split_at_last_underscore in H; try apply decimal_no_underscore.
    destruct H as [-> H%decimal_inj]. done.
  - intros [-> H]. unfold image_path. by rewrite H.
Qed.

(** The disk after an accepted request with a string image, when neither
    [fs] call fails. *)
Lemma accepted_disk_written P body w coll img soil temp hum :
  accepted body coll soil temp hum ->
  prop body "image_base64" = VString img ->
  uploads_available P w ->
  fs_write_error (w_fs w) = None ->
  w_fs (store_reading P body w).2
  = {| fs_dirs := fs_dirs (w_fs (with_uploads P w));
       fs_files := <[ image_path P coll w := Buffer_from_base64 (base64_part img) ]>
                     (fs_files (w_fs w));
       fs_mkdir_error := fs_mkdir_error (w_fs w);
       fs_write_error := fs_write_error (w_fs w);
     fs_write_partial := fs_write_partial (w_fs w) |}.
Proof.
  intros Hacc Him Hup Hwr.
  pose proof (save_image_written P coll
                (Buffer_from_base64 (base64_part img)) w Hup Hwr) as Hsave.
  rewrite <- image_stage_string, <- Him in Hsave.
  by rewrite (accepted_disk P body w coll soil temp hum _ _ Hacc Hsave).
Qed.

(** X14: file names are unique per field and millisecond only. When two
    accepted requests for the same collection are served with the same
    [Date.now()] reading, the second writes to the path of the first and its
    image replaces the first one: afterwards the disk holds one file for the
    two requests, with the second image. *)
Theorem same_millisecond_overwrites
    (P : Process) (b1 b2 : gmap string JsValue) (w w2 : World)
    (coll img1 img2 : jsstring) (s1 t1 h1 s2 t2 h2 : JsNumber) :
  accepted b1 coll s1 t1 h1 ->
  prop b1 "image_base64" = VString img1 ->
  accepted b2 coll s2 t2 h2 ->
  prop b2 "image_base64" = VString img2 ->
  fs_mkdir_error (w_fs w) = None ->
  fs_write_error (w_fs w) = None ->
  w_fs w2 = w_fs (store_reading P b1 w).2 ->
  w_date_now w2 = w_date_now w ->
  fs_files (w_fs (store_reading P b1 w).2) !! image_path P coll w
  = Some (Buffer_from_base64 (base64_part img1))
  /\ fs_files (w_fs (store_reading P b2 w2).2)
     = <[ image_path P coll w := Buffer_from_base64 (base64_part img2) ]>
         (fs_files (w_fs w)).
Proof.
  intros Ha1 Hi1 Ha2 Hi2 Hmk Hwr Hfs Hnow.
  assert (Hup : uploads_available P w) by (right; by right).
  pose proof (accepted_disk_written P b1 w coll img1 s1 t1 h1 Ha1 Hi1 Hup Hwr)
    as Hfirst.
  rewrite Hfirst in Hfs.
  split; [rewrite Hfirst; simpl; by rewrite lookup_insert_eq|].
  assert (Hup2 : uploads_available P w2).
  { right; right. by rewrite Hfs. }
  assert (Hwr2 : fs_write_error (w_fs w2) = None) by (by rewrite Hfs).
  rewrite (accepted_disk_written P b2 w2 coll img2 s2 t2 h2 Ha2 Hi2 Hup2 Hwr2).
  simpl. unfold image_path. rewrite Hnow, Hfs. simpl.
  by rewrite insert_insert_eq.
Qed.

Lemma same_millisecond_overwrites_witness :
  fs_files (w_fs (store_reading sample_process sample_body sample_world).2)
    !! image_path sample_process (js "Field_01") sample_world
  = Some (Buffer_from_base64 (base64_part (js "QQ==")))
  /\ fs_files
       (w_fs (store_reading sample_process second_image_body
                (store_reading sample_process sample_body sample_world).2).2)
     = <[ image_path sample_process (js "Field_01") sample_world
          := Buffer_from_base64
               (base64_part (js "data:image/jpeg;base64,Qg==")) ]>
         (fs_files (w_fs sample_world)).
Proof.
  apply (same_millisecond_overwrites sample_process sample_body
           second_image_body sample_world
           (store_reading sample_process sample_body sample_world).2
           (js "Field_01") (js "QQ==") (js "data:image/jpeg;base64,Qg==")
           (StringToNumber (js "42.5")) (of_Z 21) (of_Z 60)
           (StringToNumber (js "42.5")) (of_Z 21) (of_Z 60)).
  - exact sample_body_accepted.
  - vm_compute. reflexivity.
  - repeat split; vm_compute; reflexivity.
  - vm_compute. reflexivity.
  - reflexivity.
  - reflexivity.
  - reflexivity.
  - vm_compute. reflexivity.
Defined.

(** ** The decoder and the configuration *)

(** X15: [decodeBase64Image] never throws to its caller and never touches
    the disk or the database: for a string it answers a buffer and changes
    nothing; for any other value it answers a null buffer and logs one
    error. *)
Theorem decodeBase64Image_never_throws (v : JsValue) (w : World) :
  exists buffer w',
    decodeBase64Image v w = (Normal buffer, w')
    /\ w_fs w' = w_fs w /\ w_db w' = w_db w
    /\ (buffer = None <-> is_string v = false)
    /\ (is_string v = true -> w' = w)
    /\ (is_string v = false ->
        w_log w' = w_log w
                   ++ [ConsoleError "Error decoding base64 image:" (match_error v)]).
Proof.
  destruct (is_string v) eqn:Hs.
  - destruct v; try discriminate. rewrite decodeBase64Image_string.
    eexists _, _. split; [reflexivity|]. split_and!; try done.
  - rewrite (decodeBase64Image_not_string v w Hs).
    eexists _, _. split; [reflexivity|]. split_and!; try done.
Qed.

(** X16: the database is [process.env.DATABASE_NAME || "AgriVision_IoT"]:
    with the variable unset or empty, every collection a request changes is
    in the database [AgriVision_IoT]; with a non-empty value, in the database
    of that name. *)
Theorem database_defaults_when_unset_or_empty
    (P : Process) (body : gmap string JsValue) (w : World)
    (key : jsstring * jsstring) :
  db_collections (w_db (store_reading P body w).2) !! key
    <> db_collections (w_db w) !! key ->
  match env_DATABASE_NAME P with
  | None | Some [] => key.1 = js "AgriVision_IoT"
  | Some name => key.1 = name
  end.
Proof.
  intros H.
  destruct (proj1 (store_reading_effects P body w) key H) as (coll & _ & ->).
  simpl. unfold DATABASE_NAME. by destruct (env_DATABASE_NAME P) as [[|c s]|].
Qed.

Lemma database_defaults_when_unset_or_empty_witness :
  db_collections (w_db (store_reading empty_env_process sample_body sample_world).2)
    !! (js "AgriVision_IoT", js "Field_01")
  <> db_collections (w_db sample_world) !! (js "AgriVision_IoT", js "Field_01")
  /\ (js "AgriVision_IoT", js "Field_01").1 = js "AgriVision_IoT".
Proof.
  assert (H : db_collections
                (w_db (store_reading empty_env_process sample_body sample_world).2)
                !! (js "AgriVision_IoT", js "Field_01")
              <> db_collections (w_db sample_world)
                   !! (js "AgriVision_IoT", js "Field_01"))
    by (vm_compute; discriminate).
  split; [exact H|].
  exact (database_defaults_when_unset_or_empty empty_env_process sample_body
           sample_world (js "AgriVision_IoT", js "Field_01") H).
Defined.

(** ** One collection per field *)

(** X17: requests for one field leave the collections of the other fields
    alone: a request changes no collection but the one named by its own
    sanitized [field_id] in the configured database, and a request whose
    [field_id] is refused changes none. *)
Theorem other_collections_untouched
    (P : Process) (body : gmap string JsValue) (w : World)
    (key : jsstring * jsstring) :
  (forall coll,
     sanitizeCollectionName (prop body "field_id") = Some coll ->
     key <> (DATABASE_NAME P, coll)) ->
  db_collections (w_db (store_reading P body w).2) !! key
  = db_collections (w_db w) !! key.
Proof.
  intros Hother.
  destruct (store_reading_cases P body w)
    as [[k [-> _]] | [(coll & e & w1 & _ & -> & (Hdb & _) & _)
                     | (coll & soil & temp & hum & saved & w1 & Hc & _ & _ & _
                        & _ & _ & _ & _ & ->)]].
  - reflexivity.
  - simpl. by rewrite Hdb.
  - simpl. apply lookup_insert_ne. intros Heq. by apply (Hother coll Hc).
Qed.

Lemma other_collections_untouched_witness :
  db_collections (w_db (store_reading sample_process sample_body sample_world).2)
    !! (js "AgriVision_IoT", js "Field_02")
  = db_collections (w_db sample_world) !! (js "AgriVision_IoT", js "Field_02").
Proof.
  apply (other_collections_untouched sample_process sample_body sample_world).
  intros coll Hc. vm_compute in Hc. injection Hc as <-. vm_compute. discriminate.
Defined.

(** ** An empty image *)

(** X18: [image_base64] is tested against [null] and [undefined] only, so
    the empty string is a present image: for an otherwise accepted request,
    on a disk where the directory can be made and the write succeeds, an
    empty file is written at [image_path] and, when the insert succeeds, the
    request is answered 200 with that path as [saved_file]. *)
Theorem empty_image_writes_an_empty_file
    (P : Process) (body : gmap string JsValue) (w : World)
    (coll : jsstring) (soil temp hum : JsNumber) :
  accepted body coll soil temp hum ->
  prop body "image_base64" = VString [] ->
  uploads_available P w ->
  fs_write_error (w_fs w) = None ->
  db_error (w_db w) = None ->
  (store_reading P body w).1
  = Normal {| status := 200;
              json := SuccessJson (db_next_id (w_db w)) coll
                        (Some (image_path P coll w)) |}
  /\ fs_files (w_fs (store_reading P body w).2) !! image_path P coll w = Some [].
Proof.
  intros Hacc Him Hup Hwr Hdb.
  pose proof (save_image_written P coll
                (Buffer_from_base64 (base64_part [])) w Hup Hwr) as Hsave.
  rewrite <- image_stage_string, <- Him in Hsave.
  rewrite (store_reading_accepted P body w coll soil temp hum _ _ Hacc Hsave).
  rewrite Hdb. simpl. by rewrite lookup_insert_eq.
Qed.

Lemma empty_image_writes_an_empty_file_witness :
  (store_reading sample_process empty_image_body sample_world).1
  = Normal {| status := 200;
              json := SuccessJson (db_next_id (w_db sample_world)) (js "Field_01")
                        (Some (image_path sample_process (js "Field_01")
                                 sample_world)) |}
  /\ fs_files (w_fs (store_reading sample_process empty_image_body sample_world).2)
       !! image_path sample_process (js "Field_01") sample_world = Some [].
Proof.
  apply (empty_image_writes_an_empty_file sample_process empty_image_body
           sample_world (js "Field_01")
           (StringToNumber (js "42.5")) (of_Z 21) (of_Z 60)).
  - repeat split; vm_compute; reflexivity.
  - vm_compute. reflexivity.
  - right. right. reflexivity.
  - reflexivity.
  - reflexivity.
Defined.
